(** * Analytics core of the xAPI dashboard

    A shallow embedding of [src/utils/dataAggregator.js] (classes
    [DataAggregator] and [CourseDataProcessor]) and of
    [src/utils/dataValidator.js] (class [DataValidator]), with the
    properties of the specification stated about the embedded functions.

    Conventions of the embedding:
    - a JavaScript number is a value of [num]: an exact rational, or one
      of [Infinity], [-Infinity], [NaN].  Binary rounding of doubles and
      the sign of zero are not modelled;
    - an instant ([new Date(...)] of a statement timestamp) is its epoch
      time in milliseconds, a [Z];
    - [new Date()] without argument reads the ambient clock: it is the
      effect [NewDate] of the monad [Clocked];
    - a JavaScript [Set] of strings whose content only is observed is a
      [gset string]; an object used as a dictionary is a [gmap];
    - [Array.prototype.sort] is stable. *)

From Stdlib Require Import ZArith QArith Qround Qminmax String Ascii List Sorted Lia Lqa.
From stdpp Require Import gmap strings list pretty sorting.
Import ListNotations.

Set Warnings "-clear-no-such-hyp".
Local Open Scope Z_scope.

(** ** JavaScript numbers *)

Module JS.

Inductive num : Type :=
| Fin (q : Q)
| Infinity
| NegInfinity
| NaN.

Definition of_Z (z : Z) : num := Fin (inject_Z z).
Definition of_nat (n : nat) : num := of_Z (Z.of_nat n).

Definition is_zero (q : Q) : bool := Qeq_bool q 0.
Definition is_pos (q : Q) : bool := negb (Qle_bool q 0).
Definition is_neg (q : Q) : bool := negb (Qle_bool 0 q).

(** [a + b] *)
Definition add (a b : num) : num :=
  match a, b with
  | NaN, _ | _, NaN => NaN
  | Fin x, Fin y => Fin (Qred (x + y))
  | Infinity, NegInfinity | NegInfinity, Infinity => NaN
  | Infinity, _ | _, Infinity => Infinity
  | NegInfinity, _ | _, NegInfinity => NegInfinity
  end.

(** [-a] *)
Definition neg (a : num) : num :=
  match a with
  | Fin x => Fin (Qred (- x))
  | Infinity => NegInfinity
  | NegInfinity => Infinity
  | NaN => NaN
  end.

(** [a - b] *)
Definition sub (a b : num) : num := add a (neg b).

Definition signed_inf (positive : bool) : num :=
  if positive then Infinity else NegInfinity.

(** [a * b] *)
Definition mul (a b : num) : num :=
  match a, b with
  | NaN, _ | _, NaN => NaN
  | Fin x, Fin y => Fin (Qred (x * y))
  | Fin x, Infinity | Infinity, Fin x =>
      if is_zero x then NaN else signed_inf (is_pos x)
  | Fin x, NegInfinity | NegInfinity, Fin x =>
      if is_zero x then NaN else signed_inf (is_neg x)
  | Infinity, Infinity | NegInfinity, NegInfinity => Infinity
  | Infinity, NegInfinity | NegInfinity, Infinity => NegInfinity
  end.

(** [a / b]; a zero divisor is the positive zero *)
Definition div (a b : num) : num :=
  match a, b with
  | NaN, _ | _, NaN => NaN
  | Fin x, Fin y =>
      if is_zero y
      then (if is_zero x then NaN else signed_inf (is_pos x))
      else Fin (Qred (x / y))
  | Fin _, _ => Fin 0
  | Infinity, Fin y => signed_inf (negb (is_neg y))
  | NegInfinity, Fin y => signed_inf (is_neg y)
  | _, _ => NaN
  end.

(** [a > b], [a < b], [a <= b], [a >= b], [a === b] *)
Definition gt (a b : num) : bool :=
  match a, b with
  | NaN, _ | _, NaN => false
  | Fin x, Fin y => negb (Qle_bool x y)
  | Infinity, Infinity => false
  | Infinity, _ => true
  | _, NegInfinity => match a with NegInfinity => false | _ => true end
  | _, _ => false
  end.

Definition lt (a b : num) : bool := gt b a.

Definition le (a b : num) : bool :=
  match a, b with
  | NaN, _ | _, NaN => false
  | _, _ => negb (gt a b)
  end.

Definition ge (a b : num) : bool := le b a.

Definition eqb (a b : num) : bool :=
  match a, b with
  | Fin x, Fin y => Qeq_bool x y
  | Infinity, Infinity | NegInfinity, NegInfinity => true
  | _, _ => false
  end.

(** [Math.round]: the nearest integer, halves towards [+Infinity] *)
Definition round_half_up (q : Q) : Z := Qfloor (q + (1 # 2)).

Definition Math_round (a : num) : num :=
  match a with
  | Fin x => of_Z (round_half_up x)
  | _ => a
  end.

(** [Math.max(a, b)] and [Math.min(a, b)] *)
Definition max2 (a b : num) : num :=
  match a, b with
  | NaN, _ | _, NaN => NaN
  | _, _ => if gt b a then b else a
  end.

Definition min2 (a b : num) : num :=
  match a, b with
  | NaN, _ | _, NaN => NaN
  | _, _ => if lt b a then b else a
  end.

(** [Math.max(...l)] and [Math.min(...l)]; on no argument they are
    [-Infinity] and [Infinity] *)
Definition Math_max (l : list num) : num := fold_left max2 l NegInfinity.
Definition Math_min (l : list num) : num := fold_left min2 l Infinity.

(** [l.reduce((sum, x) => sum + x, 0)] *)
Definition sum (l : list num) : num := fold_left add l (Fin 0).

Definition is_finite (a : num) : bool :=
  match a with Fin _ => true | _ => false end.

(** Two numbers denote the same value *)
Definition same (a b : num) : Prop :=
  match a, b with
  | Fin x, Fin y => Qeq x y
  | Infinity, Infinity | NegInfinity, NegInfinity | NaN, NaN => True
  | _, _ => False
  end.

(** [arr.sort(cmp)]: stable, [cmp a b < 0] puts [a] first *)
Section Sort.
Context {A : Type} (cmp : A -> A -> Z).

Fixpoint sort_insert (x : A) (l : list A) : list A :=
  match l with
  | [] => [x]
  | y :: l' => if cmp y x <=? 0 then y :: sort_insert x l' else x :: l
  end.

Definition sort (l : list A) : list A :=
  fold_left (fun acc x => sort_insert x acc) l [].
End Sort.

End JS.

Import JS.

(** ** The ambient clock

    [new Date()] is the only effect of the analytics core.  A computation
    that may read the clock is a tree whose [NewDate] nodes wait for the
    epoch time (milliseconds) the runtime hands back. *)

Inductive Clocked (A : Type) : Type :=
| Ret (a : A)
| NewDate (k : Z -> Clocked A).

Arguments Ret {A} a.
Arguments NewDate {A} k.


(** Run a computation with a clock that shows [now] at every reading. *)
Fixpoint run_at {A : Type} (now : Z) (m : Clocked A) : A :=
  match m with
  | Ret a => a
  | NewDate k => run_at now (k now)
  end.

(** Number of clock readings along the run. *)
Fixpoint clock_reads {A : Type} (now : Z) (m : Clocked A) : nat :=
  match m with
  | Ret _ => 0%nat
  | NewDate k => S (clock_reads now (k now))
  end.

(** ** xAPI statements *)

Record Score : Type := {
  scaled : Q;
  score_raw : option Q;
  score_max : option Q
}.

Record Result : Type := {
  score : option Score;
  success : option bool;
  completion : option bool;
  duration : option string
}.

Record Actor : Type := {
  actor_name : option string;
  mbox : option string
}.

Record Verb : Type := {
  verb_id : string;
  display : gmap string string
}.

Record ActivityDefinition : Type := {
  name : gmap string string;
  type : option string
}.

Record Activity : Type := {
  object_id : string;
  definition : option ActivityDefinition
}.

Record Statement : Type := {
  actor : Actor;
  verb : Verb;
  object : Activity;
  result : option Result;
  timestamp : Z
}.

Definition VERB_COMPLETED : string := "http://adlnet.gov/expapi/verbs/completed".
Definition TYPE_MODULE : string := "http://coursera.org/xapi/activity-types/module".

(** [s || fallback] on a possibly undefined string: the empty string is
    falsy as well *)
Definition or_string (s : option string) (fallback : string) : string :=
  match s with
  | Some EmptyString | None => fallback
  | Some v => v
  end.

(** [stmt.object.definition?.type] *)
Definition activityType (stmt : Statement) : option string :=
  match definition (object stmt) with
  | Some d => type d
  | None => None
  end.

(** [stmt.object.definition?.name['en-US']] *)
Definition activityName (stmt : Statement) : option string :=
  match definition (object stmt) with
  | Some d => name d !! "en-US"%string
  | None => None
  end.

(** [stmt.result?.score] *)
Definition result_score (stmt : Statement) : option Score :=
  match result stmt with
  | Some r => score r
  | None => None
  end.

Definition is_completion (stmt : Statement) : bool :=
  bool_decide (verb_id (verb stmt) = VERB_COMPLETED).

(** ** CourseDataProcessor.calculateProgress *)

Record ModuleCompletion : Type := {
  mc_id : string;
  mc_name : string;
  completedAt : Z;
  mc_actor : option string
}.

Record ProgressSummary : Type := {
  completed : nat;
  total : nat;
  percentage : num;
  remaining : Z;
  moduleCompletions : list ModuleCompletion;
  lastActivity : option Z
}.

(** The three accumulators of the [forEach] loop *)
Record ProgressAcc : Type := {
  acc_completedActivities : gset string;
  acc_totalActivities : gset string;
  moduleAcc : list ModuleCompletion
}.

Definition progress_step (acc : ProgressAcc) (stmt : Statement) : ProgressAcc :=
  let activityId := object_id (object stmt) in
  let seen := acc_totalActivities acc ∪ {[ activityId ]} in
  if is_completion stmt then
    {| acc_completedActivities := acc_completedActivities acc ∪ {[ activityId ]};
       acc_totalActivities := seen;
       moduleAcc :=
         if bool_decide (activityType stmt = Some TYPE_MODULE) then
           moduleAcc acc ++
             [ {| mc_id := activityId;
                  mc_name := or_string (activityName stmt) "Unknown Module";
                  completedAt := timestamp stmt;
                  mc_actor := actor_name (actor stmt) |} ]
         else moduleAcc acc |}
  else
    {| acc_completedActivities := acc_completedActivities acc;
       acc_totalActivities := seen;
       moduleAcc := moduleAcc acc |}.

Definition calculateProgress (statements : list Statement) : ProgressSummary :=
  let acc :=
    fold_left progress_step statements
      {| acc_completedActivities := ∅; acc_totalActivities := ∅; moduleAcc := [] |} in
  let completed := size (acc_completedActivities acc) in
  let total := size (acc_totalActivities acc) in
  {| completed := completed;
     total := total;
     percentage :=
       if (0 <? total)%nat
       then Math_round (mul (div (of_nat completed) (of_nat total)) (of_Z 100))
       else of_Z 0;
     remaining := Z.of_nat total - Z.of_nat completed;
     moduleCompletions :=
       sort (fun a b => completedAt b - completedAt a) (moduleAcc acc);
     lastActivity := timestamp <$> head statements |}.


(** Activity ids seen, and activity ids completed, in a statement list *)
Definition seen_ids (statements : list Statement) : gset string :=
  list_to_set (map (fun s => object_id (object s)) statements).

Definition completed_ids (statements : list Statement) : gset string :=
  list_to_set
    (map (fun s => object_id (object s)) (List.filter is_completion statements)).

(** A statement of a given actor-independent shape, for the scenarios *)
Definition statement_of (verbId activityId : string) (res : option Result)
    (ts : Z) : Statement :=
  {| actor := {| actor_name := Some "Learner"%string;
                 mbox := Some "mailto:learner@example.com"%string |};
     verb := {| verb_id := verbId; display := ∅ |};
     object := {| object_id := activityId; definition := None |};
     result := res;
     timestamp := ts |}.

Definition VERB_EXPERIENCED : string := "http://adlnet.gov/expapi/verbs/experienced".

(** Ten statements: six completions of six activities, four other events,
    eight activities in all *)
Definition progress_scenario : list Statement :=
  [ statement_of VERB_COMPLETED "act/1" None 1704067200000;
    statement_of VERB_COMPLETED "act/2" None 1704067201000;
    statement_of VERB_COMPLETED "act/3" None 1704067202000;
    statement_of VERB_COMPLETED "act/4" None 1704067203000;
    statement_of VERB_COMPLETED "act/5" None 1704067204000;
    statement_of VERB_COMPLETED "act/6" None 1704067205000;
    statement_of VERB_EXPERIENCED "act/7" None 1704067206000;
    statement_of VERB_EXPERIENCED "act/8" None 1704067207000;
    statement_of VERB_EXPERIENCED "act/1" None 1704067208000;
    statement_of VERB_EXPERIENCED "act/7" None 1704067209000 ].

(** ** CourseDataProcessor.calculateStudySessions *)

Record Session : Type := {
  session_start : Z;
  session_end : Z;
  activities : Z;
  session_duration : num
}.

(** [currentSession] while it is still being extended: no duration yet *)
Record OpenSession : Type := {
  open_start : Z;
  open_end : Z;
  open_activities : Z
}.

(** [currentSession.duration = (end - start) / 1000; sessions.push(...)] *)
Definition close_session (cur : OpenSession) : Session :=
  {| session_start := open_start cur;
     session_end := open_end cur;
     activities := open_activities cur;
     session_duration := div (of_Z (open_end cur - open_start cur)) (of_Z 1000) |}.

Definition new_session (t : Z) : OpenSession :=
  {| open_start := t; open_end := t; open_activities := 1 |}.

(** The [for] loop from index 1, then the push of the last session *)
Fixpoint sessions_loop (rest : list Statement) (sessions : list Session)
    (currentSession : OpenSession) : list Session :=
  match rest with
  | [] => sessions ++ [close_session currentSession]
  | stmt :: rest' =>
      let currentTime := timestamp stmt in
      let timeDiff := currentTime - open_end currentSession in
      if timeDiff <=? 3600000 then
        sessions_loop rest' sessions
          {| open_start := open_start currentSession;
             open_end := currentTime;
             open_activities := open_activities currentSession + 1 |}
      else
        sessions_loop rest' (sessions ++ [close_session currentSession])
          (new_session currentTime)
  end.

(** [statements.sort((a, b) => new Date(a.timestamp) - new Date(b.timestamp))] *)
Definition sort_by_time (statements : list Statement) : list Statement :=
  sort (fun a b => timestamp a - timestamp b) statements.

Definition calculateStudySessions (statements : list Statement) : list Session :=
  match statements with
  | [] => []
  | _ :: _ =>
      match sort_by_time statements with
      | [] => []
      | first :: rest => sessions_loop rest [] (new_session (timestamp first))
      end
  end.

(** Two statements one hour apart, and two a millisecond further apart *)
Definition session_pair (gap : Z) : list Statement :=
  [ statement_of VERB_EXPERIENCED "act/2" None (1704067200000 + gap);
    statement_of VERB_EXPERIENCED "act/1" None 1704067200000 ].

(** ** CourseDataProcessor.calculateLearningStreak *)

Definition MS_PER_DAY : Z := 1000 * 60 * 60 * 24.

(** [new Date(ts).toISOString().split('T')[0]]: the UTC calendar date of
    an instant.  A calendar date is represented by its number of days
    since 1970-01-01; for the years 0000 to 9999 the ISO date strings
    order as these numbers do. *)
Definition utc_date (ts : Z) : Z := ts / MS_PER_DAY.

(** [new Date(dateString)]: the instant of UTC midnight of a date *)
Definition date_instant (date : Z) : Z := date * MS_PER_DAY.

(** [[...new Set(l)]]: the distinct values in order of first occurrence *)
Definition set_values (l : list Z) : list Z :=
  fold_left (fun seen d => if bool_decide (d ∈ seen) then seen else seen ++ [d])
    l [].

(** The distinct activity dates, ascending *)
Definition activityDates (statements : list Statement) : list Z :=
  sort (fun a b => a - b)
    (set_values (map (fun stmt => utc_date (timestamp stmt)) statements)).

(** [(new Date(currentDate) - new Date(prevDate)) / (1000 * 60 * 60 * 24)] *)
Definition dayDiff (prevDate currentDate : Z) : num :=
  div (of_Z (date_instant currentDate - date_instant prevDate)) (of_Z MS_PER_DAY).

(** The forward loop over [activityDates[i - 1]], [activityDates[i]]:
    returns [longestStreak] and [streakCount] *)
Fixpoint longest_loop (prevDate : Z) (rest : list Z)
    (longestStreak streakCount : Z) : Z * Z :=
  match rest with
  | [] => (longestStreak, streakCount)
  | currentDate :: rest' =>
      if eqb (dayDiff prevDate currentDate) (of_Z 1)
      then longest_loop currentDate rest' longestStreak (streakCount + 1)
      else longest_loop currentDate rest' (Z.max longestStreak streakCount) 1
  end.

(** The backward loop, over the dates from the most recent one *)
Fixpoint current_loop (datesDescending : list Z) (currentStreak : Z) : Z :=
  match datesDescending with
  | currentDate :: ((prevDate :: _) as earlier) =>
      if eqb (dayDiff prevDate currentDate) (of_Z 1)
      then current_loop earlier (currentStreak + 1)
      else currentStreak
  | _ => currentStreak
  end.

Record Streak : Type := {
  current : Z;
  longest : Z;
  totalDays : Z
}.

Definition calculateLearningStreak (statements : list Statement) : Clocked Streak :=
  match statements with
  | [] => Ret {| current := 0; longest := 0; totalDays := 0 |}
  | _ :: _ =>
      let dates := activityDates statements in
      let '(longestStreak, streakCount) :=
        match dates with
        | [] => (0, 1)
        | first :: rest => longest_loop first rest 0 1
        end in
      let longestStreak := Z.max longestStreak streakCount in
      NewDate (fun now =>
        let today := utc_date now in
        let daysSinceLastActivity :=
          match last dates with
          | Some lastActivityDate => dayDiff lastActivityDate today
          | None => NaN
          end in
        let currentStreak :=
          if le daysSinceLastActivity (of_Z 1)
          then current_loop (rev dates) 0 + 1
          else 0 in
        Ret {| current := currentStreak;
               longest := longestStreak;
               totalDays := Z.of_nat (length dates) |})
  end.

(** Activity on 1, 2, 3 and 10 January 2024 (days 19723, 19724, 19725
    and 19732 of the epoch); 11 January, noon, is instant 1704974400000 *)
Definition streak_scenario : list Statement :=
  [ statement_of VERB_EXPERIENCED "act/1" None 1704100000000;
    statement_of VERB_EXPERIENCED "act/1" None 1704190000000;
    statement_of VERB_EXPERIENCED "act/2" None 1704250000000;
    statement_of VERB_EXPERIENCED "act/2" None 1704880000000;
    statement_of VERB_EXPERIENCED "act/3" None 1704067200000 ].

(** ** DataAggregator.assessDataQuality *)

Record Quality : Type := {
  quality_score : num;
  issues : list string;
  completeness : num;
  freshness : num
}.

(** The part after the freshness check: missing results, overall score *)
Definition quality_results (statements : list Statement) (freshness : num)
    (issues : list string) : Quality :=
  let statementsWithResults :=
    List.filter (fun s => bool_decide (is_Some (result s))) statements in
  let resultCompleteness :=
    if (0 <? length statements)%nat
    then mul (div (of_nat (length statementsWithResults))
                  (of_nat (length statements))) (of_Z 100)
    else of_Z 0 in
  let incomplete := lt resultCompleteness (of_Z 80) in
  let completeness := if incomplete then resultCompleteness else of_Z 100 in
  {| quality_score := Math_round (div (add completeness freshness) (of_Z 2));
     issues :=
       if incomplete
       then issues ++ ["Some activities missing result data"%string]
       else issues;
     completeness := completeness;
     freshness := freshness |}.

Definition assessDataQuality (statements : list Statement) : Clocked Quality :=
  match statements with
  | [] =>
      Ret (quality_results statements (of_Z 0)
             ["No activity data available"%string])
  | _ :: _ =>
      let latestActivity :=
        Math_max (map (fun s => of_Z (timestamp s)) statements) in
      NewDate (fun now =>
        let daysSinceLatest :=
          div (sub (of_Z now) latestActivity) (of_Z MS_PER_DAY) in
        Ret (if gt daysSinceLatest (of_Z 7)
             then quality_results statements
                    (max2 (of_Z 0)
                       (sub (of_Z 100)
                          (mul (sub daysSinceLatest (of_Z 7)) (of_Z 10))))
                    ["Data is more than a week old"%string]
             else quality_results statements (of_Z 100) []))
  end.

(** The specification's reading of the two quality measures.
    [result_percentage]: the percentage of statements carrying a result;
    [days_between]: the days from the latest activity to now;
    [linear_freshness]: 100 minus 10 points per day beyond 7, floored at 0. *)
Definition with_result (statements : list Statement) : list Statement :=
  List.filter (fun s => bool_decide (is_Some (result s))) statements.

Definition result_percentage (statements : list Statement) : Q :=
  match statements with
  | [] => 0
  | _ :: _ =>
      inject_Z (Z.of_nat (length (with_result statements))) /
      inject_Z (Z.of_nat (length statements)) * 100
  end.

Definition days_between (latest now : Z) : Q :=
  inject_Z (now - latest) / inject_Z MS_PER_DAY.

Definition linear_freshness (days : Q) : Q :=
  Qmax 0 (100 - 10 * Qmax 0 (days - 7)).



(** ** CourseDataProcessor.aggregateScores *)

Inductive Trend : Type := improving | declining | stable.

(** One entry of [scores]; [bestScore] and [firstAttempt] are set on the
    entry kept for its activity only *)
Record ScoreRecord : Type := {
  activity : string;
  activityId : string;
  score_value : Z;
  rawScore : option Q;
  maxScore : option Q;
  passed : option bool;
  attempt_time : Z;
  attempts : Z;
  bestScore : option num;
  firstAttempt : option num
}.

(** The five counters of [ranges], in the order of the source *)
Record Distribution : Type := {
  grade_A : Z;
  grade_B : Z;
  grade_C : Z;
  grade_D : Z;
  grade_F : Z
}.

Record ScoreSummary : Type := {
  scores : list ScoreRecord;
  average : num;
  highest : num;
  lowest : num;
  totalAttempts : Z;
  passRate : num;
  trend : Trend;
  distribution : option Distribution
}.

(** [Math.round(stmt.result.score.scaled * 100)] *)
Definition percent (sc : Score) : Z := round_half_up (scaled sc * 100).

(** The [filter] and [map] that build [scores] *)
Definition score_record (stmt : Statement) : option ScoreRecord :=
  match result_score stmt with
  | None => None
  | Some sc =>
      Some {| activity := or_string (activityName stmt) "Unknown Assessment";
              activityId := object_id (object stmt);
              score_value := percent sc;
              rawScore := score_raw sc;
              maxScore := score_max sc;
              passed := match result stmt with
                        | Some r => success r
                        | None => None
                        end;
              attempt_time := timestamp stmt;
              attempts := 1;
              bestScore := None;
              firstAttempt := None |}
  end.

(** [groups[key].push(score)], creating the group at the first use of
    the key.  The groups are kept in the order in which their keys were
    first used, which is the order of [Object.values] for keys that are
    not array indices (activity ids are URIs). *)
Fixpoint group_push (key : string) (x : ScoreRecord)
    (groups : list (string * list ScoreRecord)) :
    list (string * list ScoreRecord) :=
  match groups with
  | [] => [(key, [x])]
  | (k, group) :: rest =>
      if bool_decide (k = key) then (k, group ++ [x]) :: rest
      else (k, group) :: group_push key x rest
  end.

Definition activityGroups (scores : list ScoreRecord) :
    list (string * list ScoreRecord) :=
  fold_left (fun groups x => group_push (activityId x) x groups) scores [].

(** The entry kept for a group: its latest attempt, annotated *)
Definition process_group (group : list ScoreRecord) : option ScoreRecord :=
  match sort (fun a b => attempt_time b - attempt_time a) group with
  | [] => None
  | latest :: _ =>
      Some {| activity := activity latest;
              activityId := activityId latest;
              score_value := score_value latest;
              rawScore := rawScore latest;
              maxScore := maxScore latest;
              passed := passed latest;
              attempt_time := attempt_time latest;
              attempts := Z.of_nat (length group);
              bestScore :=
                Some (Math_max (map (fun s => of_Z (score_value s)) group));
              firstAttempt :=
                Some (Math_min (map (fun s => of_Z (attempt_time s)) group)) |}
  end.

(** [l.slice(0, n)] and [l.slice(n)] are [firstn n l] and [skipn n l] *)
Definition mean_score (l : list ScoreRecord) : num :=
  div (sum (map (fun s => of_Z (score_value s)) l)) (of_nat (length l)).

(** [calculateScoreTrend]; it sorts its argument in place when it has two
    entries or more, so the array is returned with the trend *)
Definition calculateScoreTrend (scores : list ScoreRecord) :
    Trend * list ScoreRecord :=
  if (length scores <? 2)%nat then (stable, scores)
  else
    let sortedByTime :=
      sort (fun a b => attempt_time a - attempt_time b) scores in
    let midPoint := (length sortedByTime / 2)%nat in
    let firstAvg := mean_score (firstn midPoint sortedByTime) in
    let secondAvg := mean_score (skipn midPoint sortedByTime) in
    let difference := sub secondAvg firstAvg in
    (if gt difference (of_Z 5) then improving
     else if lt difference (of_Z (-5)) then declining
     else stable,
     sortedByTime).

Definition count_score (ranges : Distribution) (score : Z) : Distribution :=
  if 90 <=? score then
    {| grade_A := grade_A ranges + 1; grade_B := grade_B ranges;
       grade_C := grade_C ranges; grade_D := grade_D ranges;
       grade_F := grade_F ranges |}
  else if 80 <=? score then
    {| grade_A := grade_A ranges; grade_B := grade_B ranges + 1;
       grade_C := grade_C ranges; grade_D := grade_D ranges;
       grade_F := grade_F ranges |}
  else if 70 <=? score then
    {| grade_A := grade_A ranges; grade_B := grade_B ranges;
       grade_C := grade_C ranges + 1; grade_D := grade_D ranges;
       grade_F := grade_F ranges |}
  else if 60 <=? score then
    {| grade_A := grade_A ranges; grade_B := grade_B ranges;
       grade_C := grade_C ranges; grade_D := grade_D ranges + 1;
       grade_F := grade_F ranges |}
  else
    {| grade_A := grade_A ranges; grade_B := grade_B ranges;
       grade_C := grade_C ranges; grade_D := grade_D ranges;
       grade_F := grade_F ranges + 1 |}.

Definition calculateScoreDistribution (scoreValues : list Z) : Distribution :=
  fold_left count_score scoreValues
    {| grade_A := 0; grade_B := 0; grade_C := 0; grade_D := 0; grade_F := 0 |}.

Definition truthy (b : option bool) : bool :=
  match b with Some true => true | _ => false end.

Definition aggregateScores (scoreStatements : list Statement) : ScoreSummary :=
  match scoreStatements with
  | [] =>
      {| scores := []; average := of_Z 0; highest := of_Z 0; lowest := of_Z 0;
         totalAttempts := 0; passRate := of_Z 0; trend := stable;
         distribution := None |}
  | _ :: _ =>
      let scores := omap score_record scoreStatements in
      let processedScores :=
        omap (fun g => process_group g.2) (activityGroups scores) in
      let scoreValues := map score_value processedScores in
      let average :=
        div (sum (map of_Z scoreValues)) (of_nat (length scoreValues)) in
      let highest := Math_max (map of_Z scoreValues) in
      let lowest := Math_min (map of_Z scoreValues) in
      let passCount :=
        length (List.filter (fun s => truthy (passed s)) processedScores) in
      let passRate :=
        mul (div (of_nat passCount) (of_nat (length processedScores)))
          (of_Z 100) in
      let '(trend, processedScores) := calculateScoreTrend processedScores in
      {| scores :=
           sort (fun a b => attempt_time b - attempt_time a) processedScores;
         average := Math_round average;
         highest := highest;
         lowest := lowest;
         totalAttempts := Z.of_nat (length scores);
         passRate := Math_round passRate;
         trend := trend;
         distribution := Some (calculateScoreDistribution scoreValues) |}
  end.

Definition scored (scaledScore : Q) (passed : bool) : option Result :=
  Some {| score := Some {| scaled := scaledScore; score_raw := None;
                           score_max := None |};
          success := Some passed; completion := Some true; duration := None |}.

(** Two scored attempts at one quiz *)
Definition retake_scenario : list Statement :=
  [ statement_of VERB_COMPLETED "quiz/1" (scored (85 # 100) true) 1704067200000;
    statement_of VERB_COMPLETED "quiz/1" (scored (95 # 100) true) 1704153600000 ].


(** A completion without result *)
Definition unscored_statement : Statement :=
  statement_of VERB_COMPLETED "quiz/1" None 1704067200000.

Definition no_grades : Distribution :=
  {| grade_A := 0; grade_B := 0; grade_C := 0; grade_D := 0; grade_F := 0 |}.


(** ** CourseDataProcessor.parseDuration *)













(** ** DataValidator.detectAnomalies *)

Record DayBucket : Type := {
  date : Z;
  totalActivities : Z;
  completions : Z;
  day_scores : list Z;
  videoTime : Z
}.

(** The argument of [detectAnomalies]: its [scores] and [timeline]
    properties, each possibly missing *)
Record DashboardData : Type := {
  data_scores : option ScoreSummary;
  data_timeline : option (list DayBucket)
}.

(** [message] is the fixed text of the template, without the number
    spliced in *)
Record Anomaly : Type := {
  anomaly_type : string;
  message : string;
  severity : string
}.

Inductive RiskLevel : Type := risk_none | risk_low | risk_medium | risk_high.

Record AnomalyReport : Type := {
  hasAnomalies : bool;
  anomalies : list Anomaly;
  riskLevel : RiskLevel
}.

Definition suspicious_scores : Anomaly :=
  {| anomaly_type := "suspicious_scores";
     message := "All scores are perfect (100%) - this may indicate data issues";
     severity := "medium" |}.

Definition large_improvement : Anomaly :=
  {| anomaly_type := "large_improvement";
     message := "Score improved by % - verify data accuracy";
     severity := "low" |}.

Definition activity_spike : Anomaly :=
  {| anomaly_type := "activity_spike";
     message := "Unusually high activity day ( activities)";
     severity := "low" |}.

(** [counts[anomaly.severity] = (counts[anomaly.severity] || 0) + 1] *)
Definition count_severity (counts : gmap string Z) (anomaly : Anomaly) :
    gmap string Z :=
  <[ severity anomaly := default 0 (counts !! severity anomaly) + 1 ]> counts.

(** [severityCounts.key > n]: a missing key is [undefined], never greater *)
Definition count_exceeds (counts : gmap string Z) (key : string) (n : Z) : bool :=
  match counts !! key with
  | Some k => n <? k
  | None => false
  end.

Definition calculateRiskLevel (anomalies : list Anomaly) : RiskLevel :=
  match anomalies with
  | [] => risk_none
  | _ :: _ =>
      let severityCounts := fold_left count_severity anomalies ∅ in
      if count_exceeds severityCounts "high" 0 then risk_high
      else if count_exceeds severityCounts "medium" 1 then risk_high
      else if count_exceeds severityCounts "medium" 0 then risk_medium
      else risk_low
  end.

(** The two checks on [data.scores.scores] *)
Definition score_anomalies (summary : ScoreSummary) : list Anomaly :=
  let scoreList := map score_value (scores summary) in
  let perfect :=
    (5 <? length scoreList)%nat && forallb (fun s => s =? 100) scoreList in
  let sortedScores := sort (fun a b => a - b) scoreList in
  let improved :=
    (1 <? length sortedScores)%nat &&
    match last sortedScores, head sortedScores with
    | Some highestScore, Some lowestScore => 50 <? highestScore - lowestScore
    | _, _ => false
    end in
  (if perfect then [suspicious_scores] else []) ++
  (if improved then [large_improvement] else []).

(** The check on [data.timeline] *)
Definition timeline_anomalies (timeline : list DayBucket) : list Anomaly :=
  let dayCounts := map (fun d => of_Z (totalActivities d)) timeline in
  let maxActivities := Math_max dayCounts in
  let avgActivities := div (sum dayCounts) (of_nat (length dayCounts)) in
  if gt maxActivities (mul avgActivities (of_Z 5)) then [activity_spike] else [].

Definition detectAnomalies (data : DashboardData) : AnomalyReport :=
  let anomalies :=
    match data_scores data with
    | Some summary => score_anomalies summary
    | None => []
    end ++
    match data_timeline data with
    | Some timeline => timeline_anomalies timeline
    | None => []
    end in
  {| hasAnomalies := (0 <? length anomalies)%nat;
     anomalies := anomalies;
     riskLevel := calculateRiskLevel anomalies |}.

(** A summary that lists [n] different quizzes, each scored 100 *)
Definition perfect_record (i : nat) : ScoreRecord :=
  {| activity := "Quiz"; activityId := "quiz/" +:+ pretty i;
     score_value := 100; rawScore := None; maxScore := None;
     passed := Some true; attempt_time := 1704067200000 + Z.of_nat i;
     attempts := 1; bestScore := Some (of_Z 100);
     firstAttempt := Some (of_Z (1704067200000 + Z.of_nat i)) |}.

Definition perfect_data (n : nat) : DashboardData :=
  {| data_scores :=
       Some {| scores := map perfect_record (seq 0 n);
               average := of_Z 100; highest := of_Z 100; lowest := of_Z 100;
               totalAttempts := Z.of_nat n; passRate := of_Z 100;
               trend := stable; distribution := None |};
     data_timeline := None |}.


(** * Further definitions *)



(** Successive sessions lie more than an hour apart *)
Fixpoint separated (sessions : list Session) : Prop :=
  match sessions with
  | s1 :: ((s2 :: _) as later) =>
      session_end s1 + 3600000 < session_start s2 /\ separated later
  | _ => True
  end.

(** A session spans a non-negative time, counts an activity at least,
    and lasts its span in seconds *)
Definition session_wellformed (s : Session) : Prop :=
  session_start s <= session_end s /\
  1 <= activities s /\
  exists q : Q,
    session_duration s = Fin q /\
    (q == inject_Z (session_end s - session_start s) / 1000)%Q /\
    (0 <= q)%Q.







(** Number of anomalies of a given severity *)
Definition severity_count (sev : string) (anomalies : list Anomaly) : Z :=
  Z.of_nat (length (List.filter (fun a => bool_decide (severity a = sev)) anomalies)).

(** ** DataAggregator.calculatePeriodMetrics, calculateChanges and
    createPeriodComparison *)

Module Period.

(** The four figures of a period; the changes between two periods are an
    object with the same keys *)
Record Figures : Type := {
  totalActivities : num;
  completions : num;
  averageScore : num;
  uniqueDays : num
}.

Record Comparison : Type := {
  current : Figures;
  previous : Figures;
  changes : Figures;
  period : string
}.

End Period.

Definition calculatePeriodMetrics (statements : list Statement) : Period.Figures :=
  let completions := length (List.filter is_completion statements) in
  let scores := omap (fun s => percent <$> result_score s) statements in
  let averageScore :=
    if (0 <? length scores)%nat
    then div (sum (map of_Z scores)) (of_nat (length scores))
    else of_Z 0 in
  {| Period.totalActivities := of_nat (length statements);
     Period.completions := of_nat completions;
     Period.averageScore := Math_round averageScore;
     Period.uniqueDays :=
       of_nat (length (set_values
                 (map (fun s => utc_date (timestamp s)) statements))) |}.

Definition calculateChange (curr prev : num) : num :=
  if eqb prev (of_Z 0) then (if gt curr (of_Z 0) then of_Z 100 else of_Z 0)
  else Math_round (mul (div (sub curr prev) prev) (of_Z 100)).

Definition calculateChanges (current previous : Period.Figures) : Period.Figures :=
  {| Period.totalActivities :=
       calculateChange (Period.totalActivities current)
         (Period.totalActivities previous);
     Period.completions :=
       calculateChange (Period.completions current) (Period.completions previous);
     Period.averageScore :=
       calculateChange (Period.averageScore current)
         (Period.averageScore previous);
     Period.uniqueDays :=
       calculateChange (Period.uniqueDays current) (Period.uniqueDays previous) |}.

(** The [switch] on [period]; any other name counts as a week *)
Definition period_ms (period : string) : Z :=
  if bool_decide (period = "week"%string) then 7 * 24 * 60 * 60 * 1000
  else if bool_decide (period = "month"%string) then 30 * 24 * 60 * 60 * 1000
  else if bool_decide (period = "quarter"%string) then 90 * 24 * 60 * 60 * 1000
  else 7 * 24 * 60 * 60 * 1000.

Definition createPeriodComparison (statements : list Statement)
    (period : string) : Clocked Period.Comparison :=
  NewDate (fun now =>
    let periodMs := period_ms period in
    let currentPeriodStart := now - periodMs in
    let previousPeriodStart := now - 2 * periodMs in
    let currentPeriodStatements :=
      List.filter (fun s => currentPeriodStart <=? timestamp s) statements in
    let previousPeriodStatements :=
      List.filter
        (fun s => (previousPeriodStart <=? timestamp s) &&
                  (timestamp s <? currentPeriodStart)) statements in
    let currentMetrics := calculatePeriodMetrics currentPeriodStatements in
    let previousMetrics := calculatePeriodMetrics previousPeriodStatements in
    Ret {| Period.current := currentMetrics;
           Period.previous := previousMetrics;
           Period.changes := calculateChanges currentMetrics previousMetrics;
           Period.period := period |}).

(** ** CourseDataProcessor.formatDuration *)

(** [Math.floor] *)
Definition Math_floor (a : num) : num :=
  match a with
  | Fin q => of_Z (Qfloor q)
  | _ => a
  end.

(** The integer part of a quotient, towards zero *)
Definition truncate (q : Q) : Z :=
  if Qle_bool 0 q then Qfloor q else Qceiling q.

(** [a % b]: the remainder has the sign of [a] *)
Definition rem (a b : num) : num :=
  match a, b with
  | Fin x, Fin y =>
      if is_zero y then NaN
      else Fin (Qred (x - y * inject_Z (truncate (x / y))))
  | Fin _, Infinity | Fin _, NegInfinity => a
  | _, _ => NaN
  end.

(** A formatted duration.  The three templates of [formatDuration] are
    [`${hours}h ${minutes}m`], [`${minutes}m ${secs}s`] and [`${secs}s`];
    a text is kept as its template with the numbers to splice in.
    [Literal] is a fixed text, such as the ['0m'] of the engagement
    summary. *)
Inductive DurationText : Type :=
| HoursMinutes (hours minutes : num)
| MinutesSeconds (minutes secs : num)
| SecondsOnly (secs : num)
| Literal (text : string).

Definition formatDuration (seconds : num) : DurationText :=
  let hours := Math_floor (div seconds (of_Z 3600)) in
  let minutes := Math_floor (div (rem seconds (of_Z 3600)) (of_Z 60)) in
  let secs := rem seconds (of_Z 60) in
  if gt hours (of_Z 0) then HoursMinutes hours minutes
  else if gt minutes (of_Z 0) then MinutesSeconds minutes secs
  else SecondsOnly secs.

(** ** CourseDataProcessor.generateTimelineData *)

Module Timeline.

Record ActivityView : Type := {
  id : string;
  name : string;
  verb : string;
  type : string;
  timestamp : Z;
  success : option bool;
  score : option Z
}.

Record Day : Type := {
  date : Z;
  activities : list ActivityView;
  totalActivities : Z;
  completions : Z;
  scores : list Z;
  videoTime : Z;
  averageScore : option num;
  videoTimeFormatted : DurationText;
  activityTypes : gmap string Z
}.

End Timeline.














(** ** CourseDataProcessor.calculateEngagementMetrics *)

Record EngagementMetrics : Type := {
  totalVideoTime : Z;
  totalVideoTimeFormatted : DurationText;
  videoInteractions : Z;
  studySessions : Z;
  averageSessionLength : DurationText;
  longestSession : DurationText;
  currentStreak : Z;
  longestStreak : Z;
  totalActiveDays : Z
}.



Definition total_of {A : Type} (f : A -> Z) (l : list A) : Z :=
  fold_right Z.add 0 (map f l).





(** ** DataAggregator.generateInsights *)

Module Insight.

Inductive Priority : Type := high | medium | low.

(** [message] is the fixed text of the template, without the numbers
    spliced in *)
Record t : Type := {
  type : string;
  category : string;
  title : string;
  message : string;
  priority : Priority
}.

(** The argument of [generateInsights] *)
Record Data : Type := {
  progress : ProgressSummary;
  scores : ScoreSummary;
  engagement : EngagementMetrics;
  timeline : list Timeline.Day
}.

End Insight.

Definition excellent_progress : Insight.t :=
  {| Insight.type := "success";
     Insight.category := "progress";
     Insight.title := "Excellent Progress!";
     Insight.message :=
       "You've completed % of the course. Keep up the great work!";
     Insight.priority := Insight.high |}.

Definition lets_get_moving : Insight.t :=
  {| Insight.type := "warning";
     Insight.category := "progress";
     Insight.title := "Let's Get Moving";
     Insight.message :=
       "Consider setting aside more time for learning to maintain steady progress.";
     Insight.priority := Insight.medium |}.

Definition improving_performance : Insight.t :=
  {| Insight.type := "success";
     Insight.category := "performance";
     Insight.title := "Improving Performance";
     Insight.message := "Your scores are trending upward! Average: %";
     Insight.priority := Insight.high |}.

Definition performance_dip : Insight.t :=
  {| Insight.type := "warning";
     Insight.category := "performance";
     Insight.title := "Performance Dip";
     Insight.message :=
       "Your recent scores are lower than before. Consider reviewing previous materials.";
     Insight.priority := Insight.high |}.

Definition amazing_streak : Insight.t :=
  {| Insight.type := "success";
     Insight.category := "engagement";
     Insight.title := "Amazing Streak!";
     Insight.message := " days of consistent learning. You're on fire!";
     Insight.priority := Insight.high |}.

Definition time_to_resume : Insight.t :=
  {| Insight.type := "info";
     Insight.category := "engagement";
     Insight.title := "Time to Resume";
     Insight.message :=
       "Start a new learning streak today! Consistency is key to success.";
     Insight.priority := Insight.medium |}.

Definition great_study_habits : Insight.t :=
  {| Insight.type := "success";
     Insight.category := "habits";
     Insight.title := "Great Study Habits";
     Insight.message := "You're averaging  activities per day this week.";
     Insight.priority := Insight.medium |}.

Definition video_learner : Insight.t :=
  {| Insight.type := "info";
     Insight.category := "engagement";
     Insight.title := "Video Learner";
     Insight.message :=
       "You've watched  of video content. Great visual learning!";
     Insight.priority := Insight.low |}.

(** [{ high: 3, medium: 2, low: 1 }] *)
Definition priorityOrder (p : Insight.Priority) : Z :=
  match p with
  | Insight.high => 3
  | Insight.medium => 2
  | Insight.low => 1
  end.

(** [l.slice(-n)]: the last [n] elements, all of them when there are
    fewer *)
Definition slice_last {A : Type} (n : nat) (l : list A) : list A :=
  skipn (length l - n) l.

(** The insights in the order they are pushed *)
Definition pushed_insights (data : Insight.Data) : list Insight.t :=
  let percentage := percentage (Insight.progress data) in
  let currentStreak := currentStreak (Insight.engagement data) in
  let recentActivity := slice_last 7 (Insight.timeline data) in
  let avgDailyActivities :=
    div (sum (map (fun day => of_Z (Timeline.totalActivities day)) recentActivity))
      (of_nat (length recentActivity)) in
  (if ge percentage (of_Z 80) then [excellent_progress]
   else if lt percentage (of_Z 30) then [lets_get_moving]
   else []) ++
  (match trend (Insight.scores data) with
   | improving => [improving_performance]
   | declining => [performance_dip]
   | stable => []
   end) ++
  (if 7 <=? currentStreak then [amazing_streak]
   else if currentStreak =? 0 then [time_to_resume]
   else []) ++
  (if ge avgDailyActivities (of_Z 5) then [great_study_habits] else []) ++
  (if 3600 <? totalVideoTime (Insight.engagement data) then [video_learner]
   else []).

Definition generateInsights (data : Insight.Data) : list Insight.t :=
  sort (fun a b => priorityOrder (Insight.priority b) -
                   priorityOrder (Insight.priority a))
    (pushed_insights data).

(** The insights of a list that have a given priority *)
Definition of_priority (p : Insight.Priority) (l : list Insight.t) :
    list Insight.t :=
  List.filter (fun a => priorityOrder (Insight.priority a) =? priorityOrder p) l.

(** ** DataValidator.cleanScoreData *)

(** The [score] property of a score object: [null], missing, or a
    number *)
Inductive ScoreField : Type :=
| Null
| Undefined
| Number (x : num).

(** A score object: its [score], the instant of its [timestamp], and its
    other properties, which the spread copies *)
Record ScoreEntry (A : Type) : Type := {
  entry_score : ScoreField;
  entry_timestamp : Z;
  entry_rest : A
}.

Arguments entry_score {A} _.
Arguments entry_timestamp {A} _.
Arguments entry_rest {A} _.

Definition isNaN (a : num) : bool :=
  match a with NaN => true | _ => false end.

(** The test of the [filter] *)
Definition valid_score {A : Type} (entry : ScoreEntry A) : bool :=
  match entry_score entry with
  | Null | Undefined => false
  | Number x => negb (isNaN x) && ge x (of_Z 0) && le x (of_Z 100)
  end.

(** [Math.round(score.score)]: [null] counts as 0, a missing score is
    not a number *)
Definition round_field (f : ScoreField) : num :=
  match f with
  | Null => of_Z 0
  | Undefined => NaN
  | Number x => Math_round x
  end.

Definition cleanScoreData {A : Type} (scores : list (ScoreEntry A)) :
    list (ScoreEntry A) :=
  map (fun entry =>
         {| entry_score := Number (round_field (entry_score entry));
            entry_timestamp := entry_timestamp entry;
            entry_rest := entry_rest entry |})
    (List.filter valid_score scores).

(** A score that is a whole number from 0 to 100 *)
Definition whole_percentage (f : ScoreField) : Prop :=
  exists k : Z, f = Number (of_Z k) /\ 0 <= k <= 100.

(** * Properties *)

(** ** Progress *)

Lemma progress_fold_sets (statements : list Statement) (acc : ProgressAcc) :
  let acc' := fold_left progress_step statements acc in
  acc_totalActivities acc' = acc_totalActivities acc ∪ seen_ids statements /\
  acc_completedActivities acc' = acc_completedActivities acc ∪ completed_ids statements.
Proof.
  revert acc. induction statements as [|s l IH]; intros acc; simpl.
  - unfold seen_ids, completed_ids. simpl. split; set_solver.
  - destruct (IH (progress_step acc s)) as [Ht Hc].
    rewrite Ht, Hc. unfold seen_ids, completed_ids, progress_step. simpl.
    destruct (is_completion s) eqn:E; simpl; split; set_solver.
Qed.






Lemma is_zero_inject_Z (z : Z) : is_zero (inject_Z z) = (z =? 0).
Proof.
  unfold is_zero, Qeq_bool, inject_Z; simpl.
  destruct z; reflexivity.
Qed.




(** ** Sorting *)

Section SortPermutation.
Context {A : Type} (cmp : A -> A -> Z).

Lemma sort_insert_Permutation (x : A) (l : list A) :
  sort_insert cmp x l ≡ₚ x :: l.
Proof.
  induction l as [|y l IH]; simpl; [done|].
  destruct (cmp y x <=? 0); [|done].
  rewrite IH. apply perm_swap.
Qed.

Lemma sort_fold_Permutation (l acc : list A) :
  fold_left (fun acc x => sort_insert cmp x acc) l acc ≡ₚ l ++ acc.
Proof.
  revert acc. induction l as [|x l IH]; intros acc; simpl; [done|].
  rewrite IH, sort_insert_Permutation. by rewrite Permutation_middle.
Qed.

Lemma sort_Permutation (l : list A) : sort cmp l ≡ₚ l.
Proof. unfold sort. rewrite sort_fold_Permutation. by rewrite app_nil_r. Qed.

Lemma sort_length (l : list A) : length (sort cmp l) = length l.
Proof. apply Permutation_length, sort_Permutation. Qed.
End SortPermutation.

Section SortFacts.
Context {A : Type} (key : A -> Z).

Let cmp := fun a b : A => key a - key b.

Lemma sort_insert_In (x z : A) (l : list A) :
  In z (sort_insert cmp x l) <-> z = x \/ In z l.
Proof.
  induction l as [|y l IH]; simpl; [naive_solver|].
  destruct (cmp y x <=? 0); simpl; [rewrite IH|]; naive_solver.
Qed.

Lemma sort_insert_sorted (x : A) (l : list A) :
  StronglySorted Z.le (map key l) ->
  StronglySorted Z.le (map key (sort_insert cmp x l)).
Proof.
  induction l as [|y l IH]; simpl; intros Hs.
  - repeat constructor.
  - apply StronglySorted_inv in Hs as [Hs Hy].
    destruct (Z.leb_spec (cmp y x) 0) as [Hle|Hgt]; simpl.
    + constructor; [auto|].
      apply List.Forall_forall. intros k Hk. apply in_map_iff in Hk as (z & <- & Hz).
      apply sort_insert_In in Hz as [->|Hz]; [unfold cmp in Hle; lia|].
      eapply List.Forall_forall in Hy; [exact Hy|]. by apply in_map.
    + constructor; [by constructor|].
      constructor; [unfold cmp in Hgt; lia|].
      eapply List.Forall_impl; [|exact Hy]. simpl. unfold cmp in Hgt. lia.
Qed.

Lemma sort_fold_sorted (l acc : list A) :
  StronglySorted Z.le (map key acc) ->
  StronglySorted Z.le
    (map key (fold_left (fun acc x => sort_insert cmp x acc) l acc)).
Proof.
  revert acc. induction l as [|x l IH]; intros acc Hs; simpl; [done|].
  apply IH, sort_insert_sorted, Hs.
Qed.

Lemma sort_sorted (l : list A) : StronglySorted Z.le (map key (sort cmp l)).
Proof. apply sort_fold_sorted. constructor. Qed.
End SortFacts.

(** ** Study sessions *)

Lemma last_cons {A : Type} (l : list A) (a d : A) :
  List.last (a :: l) d = List.last l a.
Proof.
  revert a d. induction l as [|b l IH]; intros a d; [done|].
  change (List.last (a :: b :: l) d) with (List.last (b :: l) d).
  by rewrite (IH b d), (IH b a).
Qed.

Lemma sessions_loop_acc (rest : list Statement) (sessions : list Session)
    (cur : OpenSession) :
  sessions_loop rest sessions cur = sessions ++ sessions_loop rest [] cur.
Proof.
  revert sessions cur. induction rest as [|s rest IH]; intros sessions cur; simpl.
  - done.
  - destruct (timestamp s - open_end cur <=? 3600000).
    + apply IH.
    + rewrite IH, (IH [close_session cur]), <- app_assoc. done.
Qed.

(** The session under construction comes out first, with its start
    unchanged and its end no earlier than it is now. *)
Lemma sessions_loop_first (rest : list Statement) (cur : OpenSession) :
  StronglySorted Z.le (open_end cur :: map timestamp rest) ->
  exists s tl,
    sessions_loop rest [] cur = s :: tl /\
    session_start s = open_start cur /\ open_end cur <= session_end s.
Proof.
  revert cur. induction rest as [|x rest IH]; intros cur Hs; simpl.
  - exists (close_session cur), []. simpl. split; [done|]. split; [done|lia].
  - apply StronglySorted_inv in Hs as [Hs Hall].
    destruct (timestamp x - open_end cur <=? 3600000).
    + destruct (IH {| open_start := open_start cur; open_end := timestamp x;
                      open_activities := open_activities cur + 1 |})
        as (s & tl & E & Hst & Hen); [exact Hs|].
      exists s, tl. simpl in *. split; [done|]. split; [done|].
      apply Forall_inv in Hall. lia.
    + rewrite sessions_loop_acc. simpl.
      exists (close_session cur), (sessions_loop rest [] (new_session (timestamp x))).
      split; [done|]. simpl. split; [done|lia].
Qed.

(** Running the loop over a prefix ending in [x] leaves a session under
    construction that ends at [x]. *)
Lemma sessions_loop_prefix (pre : list Statement) (x : Statement)
    (cur : OpenSession) :
  open_start cur <= open_end cur ->
  StronglySorted Z.le (open_end cur :: map timestamp (pre ++ [x])) ->
  exists closed cur',
    (forall rest, sessions_loop (pre ++ x :: rest) [] cur =
                  closed ++ sessions_loop rest [] cur') /\
    open_end cur' = timestamp x /\ open_start cur' <= open_end cur'.
Proof.
  revert cur. induction pre as [|y pre IH]; intros cur Hcur Hs; simpl in *.
  - apply StronglySorted_inv in Hs as [_ Hall]. apply Forall_inv in Hall.
    destruct (timestamp x - open_end cur <=? 3600000).
    + exists [], {| open_start := open_start cur; open_end := timestamp x;
                    open_activities := open_activities cur + 1 |}.
      split; [intros rest; reflexivity|]. simpl. lia.
    + exists [close_session cur], (new_session (timestamp x)). split.
      * intros rest. rewrite sessions_loop_acc. reflexivity.
      * simpl. lia.
  - apply StronglySorted_inv in Hs as [Hs Hall]. apply Forall_inv in Hall.
    destruct (timestamp y - open_end cur <=? 3600000).
    + destruct (IH {| open_start := open_start cur; open_end := timestamp y;
                      open_activities := open_activities cur + 1 |})
        as (closed & cur' & E & He & Hl); [simpl; lia | exact Hs |].
      exists closed, cur'. done.
    + destruct (IH (new_session (timestamp y)))
        as (closed & cur' & E & He & Hl); [simpl; lia | exact Hs |].
      exists (close_session cur :: closed), cur'. split; [|done].
      intros rest. rewrite sessions_loop_acc, E. reflexivity.
Qed.

(** Whatever the input, the loop ends by pushing the session under
    construction, which ends at the last statement; the activity counts
    add up to the number of statements processed. *)
Lemma sessions_loop_last (rest : list Statement) (cur : OpenSession) :
  exists init s,
    sessions_loop rest [] cur = init ++ [s] /\
    session_end s = List.last (map timestamp rest) (open_end cur) /\
    fold_right Z.add 0 (map activities (init ++ [s])) =
      open_activities cur + Z.of_nat (length rest).
Proof.
  revert cur. induction rest as [|x rest IH]; intros cur.
  - exists [], (close_session cur). simpl. split; [done|]. split; [done|lia].
  - cbn [sessions_loop].
    destruct (timestamp x - open_end cur <=? 3600000).
    + destruct (IH {| open_start := open_start cur; open_end := timestamp x;
                      open_activities := open_activities cur + 1 |})
        as (init & s & E & He & Hn).
      exists init, s. split; [done|]. split.
      * rewrite He. cbn [map]. by rewrite last_cons.
      * rewrite Hn. simpl length. simpl open_activities. lia.
    + destruct (IH (new_session (timestamp x))) as (init & s & E & He & Hn).
      exists (close_session cur :: init), s.
      rewrite sessions_loop_acc, E. split; [done|]. split.
      * rewrite He. cbn [map]. by rewrite last_cons.
      * simpl app. cbn [map fold_right]. rewrite Hn. simpl. lia.
Qed.

Lemma calculateStudySessions_sorted (statements : list Statement) :
  statements <> [] ->
  exists first rest,
    sort_by_time statements = first :: rest /\
    calculateStudySessions statements =
      sessions_loop rest [] (new_session (timestamp first)).
Proof.
  intros Hne. unfold calculateStudySessions.
  destruct statements as [|s0 l]; [done|].
  destruct (sort_by_time (s0 :: l)) as [|first rest] eqn:E.
  - apply (f_equal (@length _)) in E. unfold sort_by_time in E.
    rewrite sort_length in E. done.
  - eauto.
Qed.

(** C8. In the timestamp-ascending order the loop runs over, two
    consecutive statements at most 3600000 ms apart (so also exactly
    3600000 ms apart) lie in one session, and two more than 3600000 ms
    apart (so also 3600001 ms apart) end one session and start the next;
    the last session is closed and pushed, so that every statement is
    counted in a session; one statement alone gives one session of one
    activity and of duration 0. *)
Theorem calculateStudySessions_boundary :
  (forall (statements pre post : list Statement) (a b : Statement),
     sort_by_time statements = pre ++ a :: b :: post ->
     (timestamp b - timestamp a <= 3600000 ->
      exists (i : nat) (s : Session),
        calculateStudySessions statements !! i = Some s /\
        session_start s <= timestamp a /\ timestamp b <= session_end s) /\
     (3600000 < timestamp b - timestamp a ->
      exists (i : nat) (s1 s2 : Session),
        calculateStudySessions statements !! i = Some s1 /\
        calculateStudySessions statements !! S i = Some s2 /\
        session_end s1 = timestamp a /\ session_start s2 = timestamp b)) /\
  (forall statements : list Statement,
     statements <> [] ->
     exists (init : list Session) (s : Session),
       calculateStudySessions statements = init ++ [s] /\
       session_end s = List.last (map timestamp (sort_by_time statements)) 0 /\
       fold_right Z.add 0 (map activities (calculateStudySessions statements)) =
         Z.of_nat (length statements)) /\
  (forall stmt : Statement,
     calculateStudySessions [stmt] =
       [ {| session_start := timestamp stmt; session_end := timestamp stmt;
            activities := 1; session_duration := of_Z 0 |} ]).
Proof.
  split; [|split].
  - intros statements pre post a b Hsorted.
    assert (Hne : statements <> []).
    { intros ->. destruct pre; discriminate. }
    destruct (calculateStudySessions_sorted statements Hne)
      as (first & rest & E & ->).
    pose proof (sort_sorted timestamp statements) as Hs.
    fold (sort_by_time statements) in Hs. rewrite E in Hs.
    rewrite Hsorted in E.
    (* the state of the loop when it reaches [b] *)
    assert (Hstate : exists closed cur,
      sessions_loop rest [] (new_session (timestamp first)) =
        closed ++ sessions_loop (b :: post) [] cur /\
      open_end cur = timestamp a /\ open_start cur <= open_end cur /\
      StronglySorted Z.le (open_end cur :: map timestamp (b :: post))).
    { destruct pre as [|p0 pre]; simpl in E; injection E as <- <-.
      - exists [], (new_session (timestamp a)). simpl.
        split; [done|]. split; [done|]. split; [lia|]. exact Hs.
      - simpl in Hs.
        assert (Hs' : StronglySorted Z.le
          (timestamp p0 :: map timestamp (pre ++ [a]) ++ map timestamp (b :: post))).
        { rewrite <- map_app, <- app_assoc. exact Hs. }
        destruct (sessions_loop_prefix pre a (new_session (timestamp p0)))
          as (closed & cur & Hrun & He & Hl); [simpl; lia | |].
        { apply StronglySorted_inv in Hs' as [Hs1 Hall]. constructor.
          - clear -Hs1. induction (map timestamp (pre ++ [a])) as [|z l IH];
              simpl in *; [constructor|].
            apply StronglySorted_inv in Hs1 as [Hs1 Hz].
            constructor; [auto|]. by apply Forall_app in Hz as [Hz _].
          - by apply Forall_app in Hall as [Hall _]. }
        exists closed, cur. split; [apply Hrun|]. split; [done|]. split; [done|].
        rewrite He.
        clear -Hs'. apply StronglySorted_inv in Hs' as [Hs' _].
        rewrite map_app in Hs'. simpl in Hs'.
        induction (map timestamp pre) as [|z l IH]; simpl in *; [exact Hs'|].
        apply StronglySorted_inv in Hs' as [Hs' _]. auto. }
    destruct Hstate as (closed & cur & -> & He & Hl & Hs').
    apply StronglySorted_inv in Hs' as [Hs' _].
    cbn [sessions_loop]. rewrite He. split; intros Hgap.
    + destruct (Z.leb_spec (timestamp b - timestamp a) 3600000); [|lia].
      destruct (sessions_loop_first post
        {| open_start := open_start cur; open_end := timestamp b;
           open_activities := open_activities cur + 1 |})
        as (s & tl & -> & Hst & Hen); [exact Hs'|].
      exists (length closed), s. simpl in *.
      rewrite list_lookup_middle by done. split; [done|]. lia.
    + destruct (Z.leb_spec (timestamp b - timestamp a) 3600000); [lia|].
      rewrite sessions_loop_acc.
      destruct (sessions_loop_first post (new_session (timestamp b)))
        as (s & tl & -> & Hst & Hen); [exact Hs'|].
      exists (length closed), (close_session cur), s. simpl in *.
      split; [by rewrite list_lookup_middle|].
      split; [|done].
      rewrite (cons_middle (close_session cur)), app_assoc.
      rewrite list_lookup_middle; [done|]. rewrite length_app. simpl. lia.
  - intros statements Hne.
    destruct (calculateStudySessions_sorted statements Hne)
      as (first & rest & E & ->).
    destruct (sessions_loop_last rest (new_session (timestamp first)))
      as (init & s & -> & He & Hn).
    exists init, s. split; [done|]. split.
    + rewrite He, E. cbn [map]. by rewrite last_cons.
    + rewrite Hn. simpl.
      assert (Hlen : length (sort_by_time statements) = length statements)
        by apply sort_length.
      rewrite E in Hlen. simpl in Hlen. lia.
  - intros stmt. unfold calculateStudySessions, sort_by_time. simpl.
    unfold close_session. simpl. rewrite Z.sub_diag. reflexivity.
Qed.

Lemma calculateStudySessions_boundary_witness :
  (exists (i : nat) (s : Session),
     calculateStudySessions (session_pair 3600000) !! i = Some s /\
     session_start s <= 1704067200000 /\
     1704067200000 + 3600000 <= session_end s) /\
  (exists (i : nat) (s1 s2 : Session),
     calculateStudySessions (session_pair 3600001) !! i = Some s1 /\
     calculateStudySessions (session_pair 3600001) !! S i = Some s2 /\
     session_end s1 = 1704067200000 /\
     session_start s2 = 1704067200000 + 3600001).
Proof.
  destruct calculateStudySessions_boundary as (Hpair & _ & _).
  split.
  - apply (Hpair (session_pair 3600000) []
             [] (statement_of VERB_EXPERIENCED "act/1" None 1704067200000)
             (statement_of VERB_EXPERIENCED "act/2" None (1704067200000 + 3600000))).
    + reflexivity.
    + simpl. lia.
  - apply (Hpair (session_pair 3600001) []
             [] (statement_of VERB_EXPERIENCED "act/1" None 1704067200000)
             (statement_of VERB_EXPERIENCED "act/2" None (1704067200000 + 3600001))).
    + reflexivity.
    + simpl. lia.
Defined.

(** ** Learning streak *)


Lemma Qle_bool_inject_Z (q : Q) (z k : Z) :
  q == inject_Z z -> Qle_bool q (inject_Z k) = (z <=? k).
Proof.
  intros Hq. destruct (Z.leb_spec z k) as [Hle|Hgt].
  - apply Qle_bool_iff. rewrite Hq. by rewrite <- Zle_Qle.
  - apply not_true_is_false. intros H%Qle_bool_iff.
    rewrite Hq, <- Zle_Qle in H. lia.
Qed.




Lemma activityDates_nil : activityDates [] = [].
Proof. reflexivity. Qed.




(** ** Data quality *)

Lemma max2_of_Z (a b : Z) : max2 (of_Z a) (of_Z b) = of_Z (Z.max a b).
Proof.
  unfold max2, gt, of_Z.
  rewrite (Qle_bool_inject_Z (inject_Z b) b a) by reflexivity.
  destruct (Z.leb_spec b a); simpl; f_equal; f_equal; lia.
Qed.

Lemma Math_max_fold (l : list Z) (z : Z) :
  fold_left max2 (map of_Z l) (of_Z z) = of_Z (fold_left Z.max l z).
Proof.
  revert z. induction l as [|x l IH]; intros z; cbn [map fold_left]; [done|].
  rewrite max2_of_Z. apply IH.
Qed.

Lemma fold_max_latest (l : list Z) (z latest : Z) :
  In latest (z :: l) -> Forall (fun t => t <= latest) (z :: l) ->
  fold_left Z.max l z = latest.
Proof.
  revert z. induction l as [|x l IH]; intros z Hin Hall; simpl.
  - destruct Hin as [->|[]]. done.
  - apply IH.
    + apply Forall_inv in Hall as Hz.
      apply Forall_inv_tail, Forall_inv in Hall as Hx.
      destruct Hin as [->|[->|Hin]].
      * left. lia.
      * left. lia.
      * by right.
    + apply Forall_inv in Hall as Hz.
      apply Forall_inv_tail in Hall as Ht. apply Forall_inv in Ht as Hx.
      apply Forall_inv_tail in Ht.
      constructor; [lia|done].
Qed.

Lemma Math_max_latest (statements : list Statement) (latest : Z) :
  In latest (map timestamp statements) ->
  Forall (fun s => timestamp s <= latest) statements ->
  Math_max (map (fun s => of_Z (timestamp s)) statements) = of_Z latest.
Proof.
  intros Hin Hall. destruct statements as [|s0 l]; [destruct Hin|].
  unfold Math_max. cbn [map fold_left].
  change (max2 NegInfinity (of_Z (timestamp s0))) with (of_Z (timestamp s0)).
  rewrite <- (map_map timestamp of_Z), Math_max_fold. f_equal.
  apply fold_max_latest; [exact Hin|].
  change (timestamp s0 :: map timestamp l) with (map timestamp (s0 :: l)).
  apply Forall_map. exact Hall.
Qed.

Lemma daysSinceLatest_value (now latest : Z) :
  exists dq,
    div (sub (of_Z now) (of_Z latest)) (of_Z MS_PER_DAY) = Fin dq /\
    dq == days_between latest now.
Proof.
  unfold sub, neg, add, div, of_Z. rewrite is_zero_inject_Z.
  change (MS_PER_DAY =? 0) with false. cbv iota.
  eexists. split; [reflexivity|].
  unfold days_between. rewrite !Qred_correct.
  unfold Z.sub. rewrite inject_Z_plus, inject_Z_opp. reflexivity.
Qed.

Lemma linear_freshness_fresh (dq : Q) :
  (dq <= 7)%Q -> linear_freshness dq == 100.
Proof.
  intros H. unfold linear_freshness.
  destruct (Q.max_spec 0 (dq - 7)) as [[H1 ->]|[H1 ->]];
    destruct (Q.max_spec 0 (100 - 10 * (dq - 7))) as [[H2 E2]|[H2 E2]];
    try rewrite E2; try lra;
    destruct (Q.max_spec 0 (100 - 10 * 0)) as [[H3 ->]|[H3 ->]]; lra.
Qed.

Lemma linear_freshness_stale (dq : Q) :
  (7 < dq)%Q ->
  linear_freshness dq ==
    (if Qle_bool (100 - (dq - 7) * 10) 0 then 0 else 100 - (dq - 7) * 10).
Proof.
  intros H. unfold linear_freshness.
  destruct (Qle_bool (100 - (dq - 7) * 10) 0) eqn:E.
  - apply Qle_bool_iff in E.
    destruct (Q.max_spec 0 (dq - 7)) as [[H1 E1]|[H1 E1]]; [|lra].
    rewrite E1.
    destruct (Q.max_spec 0 (100 - 10 * (dq - 7))) as [[H2 ->]|[H2 ->]]; lra.
  - assert (Hx : ~ (100 - (dq - 7) * 10 <= 0)%Q).
    { intros Hle%Qle_bool_iff. congruence. }
    destruct (Q.max_spec 0 (dq - 7)) as [[H1 E1]|[H1 E1]]; [|lra].
    rewrite E1.
    destruct (Q.max_spec 0 (100 - 10 * (dq - 7))) as [[H2 ->]|[H2 ->]]; lra.
Qed.

Lemma Qle_bool_eq_l (x y z : Q) : x == y -> Qle_bool x z = Qle_bool y z.
Proof.
  intros H. destruct (Qle_bool y z) eqn:E.
  - apply Qle_bool_iff. apply Qle_bool_iff in E. by rewrite H.
  - apply not_true_is_false. intros H'%Qle_bool_iff.
    rewrite H in H'. apply Qle_bool_iff in H'. congruence.
Qed.

Lemma same_Fin_r (a : num) (x y : Q) : same a (Fin x) -> x == y -> same a (Fin y).
Proof. destruct a; simpl; try done. intros -> H. exact H. Qed.

Lemma freshness_value (dq : Q) :
  same
    (if gt (Fin dq) (of_Z 7)
     then max2 (of_Z 0)
            (sub (of_Z 100) (mul (sub (Fin dq) (of_Z 7)) (of_Z 10)))
     else of_Z 100)
    (Fin (linear_freshness dq)).
Proof.
  unfold gt, of_Z.
  destruct (Qle_bool dq (inject_Z 7)) eqn:E; simpl negb; cbv iota.
  - apply Qle_bool_iff in E.
    eapply same_Fin_r; [|symmetry; apply linear_freshness_fresh, E].
    simpl. reflexivity.
  - assert (Hlt : (7 < dq)%Q).
    { apply Qnot_le_lt. intros H%Qle_bool_iff. unfold inject_Z in E. congruence. }
    eapply same_Fin_r; [|symmetry; apply linear_freshness_stale, Hlt].
    unfold sub, neg, add, mul, max2, gt.
    match goal with |- context [Qle_bool ?x (inject_Z 0)] =>
      assert (Hx : x == 100 - (dq - 7) * 10)
        by (rewrite !Qred_correct; unfold inject_Z; ring);
      rewrite (Qle_bool_eq_l _ _ (inject_Z 0) Hx)
    end.
    unfold inject_Z.
    destruct (Qle_bool (100 - (dq - 7) * 10) 0); simpl; [reflexivity|exact Hx].
Qed.

Lemma same_Fin_inv (a : num) (x : Q) :
  same a (Fin x) -> exists f, a = Fin f /\ f == x.
Proof. destruct a; simpl; try done. eauto. Qed.

(** What [quality_results] computes from a finite freshness *)
Lemma quality_results_value (statements : list Statement) (f : Q)
    (found : list string) :
  let q := quality_results statements (Fin f) found in
  freshness q = Fin f /\
  exists c,
    completeness q = Fin c /\
    c == (if Qle_bool 80 (result_percentage statements)
          then 100 else result_percentage statements) /\
    quality_score q = of_Z (round_half_up ((c + f) / 2)).
Proof.
  intros q. split; [reflexivity|].
  assert (Hrc : exists r,
    (if (0 <? length statements)%nat
     then mul (div (of_nat (length (with_result statements)))
                 (of_nat (length statements))) (of_Z 100)
     else of_Z 0) = Fin r /\ r == result_percentage statements).
  { destruct statements as [|s0 l]; [exists 0%Q; done|].
    change (0 <? length (s0 :: l))%nat with true. cbv iota.
    unfold of_nat, of_Z, div. rewrite is_zero_inject_Z.
    change (Z.of_nat (length (s0 :: l)) =? 0) with false. cbv iota.
    eexists. split; [reflexivity|].
    unfold result_percentage. rewrite !Qred_correct. reflexivity. }
  destruct Hrc as (r & Hrc & Hr).
  assert (Hc : completeness q =
               if lt (Fin r) (of_Z 80) then Fin r else of_Z 100).
  { subst q. unfold quality_results. cbn [completeness].
    fold (with_result statements). rewrite Hrc. reflexivity. }
  assert (Hs : quality_score q =
               Math_round (div (add (completeness q) (Fin f)) (of_Z 2)))
    by reflexivity.
  assert (Hlt : lt (Fin r) (of_Z 80) =
                negb (Qle_bool 80 (result_percentage statements))).
  { unfold lt, gt, of_Z, inject_Z. f_equal.
    destruct (Qle_bool 80 (result_percentage statements)) eqn:E.
    - apply Qle_bool_iff. apply Qle_bool_iff in E. rewrite Hr. exact E.
    - apply not_true_is_false. intros H%Qle_bool_iff.
      rewrite Hr in H. apply Qle_bool_iff in H. congruence. }
  rewrite Hlt in Hc.
  exists (if Qle_bool 80 (result_percentage statements) then 100%Q else r).
  split; [|split].
  - rewrite Hc. by destruct (Qle_bool 80 (result_percentage statements)).
  - by destruct (Qle_bool 80 (result_percentage statements)).
  - rewrite Hs, Hc.
    destruct (Qle_bool 80 (result_percentage statements)); simpl;
      unfold of_Z, round_half_up; do 2 f_equal;
      apply Qfloor_comp; rewrite !Qred_correct; reflexivity.
Qed.





(** ** The ambient clock in streak and freshness *)





(** ** Score aggregation *)

Lemma omap_score_record_none (statements : list Statement) :
  Forall (fun s => result_score s = None) statements ->
  omap score_record statements = [].
Proof.
  induction 1 as [|s l Hs _ IH]; [done|].
  cbn [omap list_omap]. unfold score_record at 1. rewrite Hs. exact IH.
Qed.

(** A non-empty list without any score passes the length guard and is
    aggregated over no entry at all. *)
Lemma aggregateScores_no_score (statements : list Statement) :
  statements <> [] ->
  Forall (fun s => result_score s = None) statements ->
  aggregateScores statements =
    {| scores := []; average := NaN; highest := NegInfinity;
       lowest := Infinity; totalAttempts := 0; passRate := NaN;
       trend := stable; distribution := Some no_grades |}.
Proof.
  intros Hne Hnone. destruct statements as [|s0 l]; [done|].
  unfold aggregateScores. rewrite (omap_score_record_none _ Hnone).
  reflexivity.
Qed.

(** C1.  On the empty list [aggregateScores] returns the all-zero summary
    with a stable trend.  On a list of one statement without result it
    returns no entry, a stable trend and zero attempts, but its average
    and pass rate are [NaN], its highest score is [-Infinity] and its
    lowest is [Infinity]. *)
Theorem aggregateScores_score_free :
  aggregateScores [] =
    {| scores := []; average := of_Z 0; highest := of_Z 0; lowest := of_Z 0;
       totalAttempts := 0; passRate := of_Z 0; trend := stable;
       distribution := None |} /\
  result_score unscored_statement = None /\
  aggregateScores [unscored_statement] =
    {| scores := []; average := NaN; highest := NegInfinity;
       lowest := Infinity; totalAttempts := 0; passRate := NaN;
       trend := stable; distribution := Some no_grades |}.
Proof.
  split; [reflexivity|]. split; [reflexivity|].
  apply aggregateScores_no_score; [done|].
  repeat constructor.
Qed.

Example retake_summary :
  map score_value (scores (aggregateScores retake_scenario)) = [95] /\
  totalAttempts (aggregateScores retake_scenario) = 2 /\
  average (aggregateScores retake_scenario) = of_Z 95 /\
  distribution (aggregateScores retake_scenario) =
    Some {| grade_A := 1; grade_B := 0; grade_C := 0; grade_D := 0; grade_F := 0 |}.
Proof. vm_compute. repeat split; reflexivity. Qed.





(** *** Grouping by activity *)














(** ** Anomalies *)

Lemma score_anomalies_cases (summary : ScoreSummary) :
  score_anomalies summary = [] \/
  score_anomalies summary = [suspicious_scores] \/
  score_anomalies summary = [large_improvement] \/
  score_anomalies summary = [suspicious_scores; large_improvement].
Proof.
  unfold score_anomalies. cbv zeta.
  repeat match goal with
         | |- context [if ?b then [_] else []] => destruct b
         end; simpl; auto.
Qed.

Lemma timeline_anomalies_cases (timeline : list DayBucket) :
  timeline_anomalies timeline = [] \/ timeline_anomalies timeline = [activity_spike].
Proof.
  unfold timeline_anomalies. cbv zeta.
  match goal with |- context [if ?b then _ else _] => destruct b end; auto.
Qed.

(** The anomaly lists [detectAnomalies] can build *)
Lemma detectAnomalies_cases (data : DashboardData) :
  In (anomalies (detectAnomalies data))
    [ []; [activity_spike];
      [suspicious_scores]; [suspicious_scores; activity_spike];
      [large_improvement]; [large_improvement; activity_spike];
      [suspicious_scores; large_improvement];
      [suspicious_scores; large_improvement; activity_spike] ].
Proof.
  unfold detectAnomalies. cbn [anomalies].
  destruct (data_scores data) as [summary|], (data_timeline data) as [timeline|];
    try (destruct (score_anomalies_cases summary) as [E|[E|[E|E]]]; rewrite E);
    try (destruct (timeline_anomalies_cases timeline) as [E'|E']; rewrite E');
    simpl; tauto.
Qed.

(** C10. Whatever the argument, [detectAnomalies] reports anomalies of
    severity medium or low only, at most one of them medium, and a risk
    level among none, low and medium: the two tests of
    [calculateRiskLevel] that answer high never succeed on its list. *)
Theorem detectAnomalies_never_high (data : DashboardData) :
  let report := detectAnomalies data in
  Forall (fun a => severity a = "medium"%string \/ severity a = "low"%string)
    (anomalies report) /\
  (length (List.filter (fun a => bool_decide (severity a = "medium"%string))
             (anomalies report)) <= 1)%nat /\
  (riskLevel report = risk_none \/ riskLevel report = risk_low \/
   riskLevel report = risk_medium) /\
  riskLevel report <> risk_high.
Proof.
  intros report.
  assert (Hrisk : riskLevel report = calculateRiskLevel (anomalies report))
    by reflexivity.
  rewrite !Hrisk. clear Hrisk.
  pose proof (detectAnomalies_cases data) as Hcases. fold report in Hcases.
  generalize dependent (anomalies report). intros l Hcases.
  cbn [In] in Hcases.
  repeat (destruct Hcases as [E|Hcases]; [subst l|]); [..|destruct Hcases];
    (split; [repeat constructor; auto|]);
    (split; [vm_compute; lia|]);
    vm_compute; (split; [tauto|discriminate]).
Qed.

Example calculateRiskLevel_high :
  calculateRiskLevel [suspicious_scores; suspicious_scores] = risk_high.
Proof. vm_compute. reflexivity. Qed.

Lemma all_hundred_spread (l : list Z) :
  Forall (fun x => x = 100) l ->
  match last l, head l with
  | Some highestScore, Some lowestScore => 50 <? highestScore - lowestScore
  | _, _ => false
  end = false.
Proof.
  intros Hall.
  destruct (last l) as [hi|] eqn:Hl; [|done].
  destruct (head l) as [lo|] eqn:Hh; [|done].
  apply last_Some_elem_of in Hl. apply head_Some_elem_of in Hh.
  rewrite Forall_forall in Hall.
  rewrite (Hall hi Hl), (Hall lo Hh). reflexivity.
Qed.

(** C3 (amended). When the summary lists more than five scores (six or
    more), all equal to 100, [detectAnomalies] reports the anomaly
    [suspicious_scores], of severity medium; it is then the only anomaly
    of that severity and the risk level is medium. *)
Theorem detectAnomalies_perfect_scores
    (data : DashboardData) (summary : ScoreSummary) :
  data_scores data = Some summary ->
  (5 < length (scores summary))%nat ->
  Forall (fun r => score_value r = 100) (scores summary) ->
  let report := detectAnomalies data in
  In suspicious_scores (anomalies report) /\
  severity suspicious_scores = "medium"%string /\
  List.filter (fun a => bool_decide (severity a = "medium"%string))
    (anomalies report) = [suspicious_scores] /\
  hasAnomalies report = true /\
  riskLevel report = risk_medium.
Proof.
  intros Hdata Hlen Hall report.
  assert (Hscores : score_anomalies summary = [suspicious_scores]).
  { unfold score_anomalies. cbv zeta.
    assert (Hvals : Forall (fun x => x = 100) (map score_value (scores summary))).
    { apply Forall_map. exact Hall. }
    rewrite all_hundred_spread.
    - rewrite andb_false_r, length_map.
      replace (5 <? length (scores summary))%nat with true
        by (symmetry; apply Nat.ltb_lt; lia).
      replace (forallb (fun s => s =? 100) (map score_value (scores summary)))
        with true; [done|].
      symmetry. apply forallb_forall. intros x Hx.
      rewrite List.Forall_forall in Hvals. apply Z.eqb_eq. auto.
    - eapply Permutation_Forall; [|exact Hvals].
      symmetry. apply sort_Permutation. }
  subst report. unfold detectAnomalies. rewrite Hdata, Hscores.
  destruct (data_timeline data) as [timeline|];
    [destruct (timeline_anomalies_cases timeline) as [E|E]; rewrite E|];
    vm_compute; repeat split; auto.
Qed.

Lemma detectAnomalies_perfect_scores_witness :
  In suspicious_scores (anomalies (detectAnomalies (perfect_data 6))) /\
  riskLevel (detectAnomalies (perfect_data 6)) = risk_medium.
Proof.
  destruct (detectAnomalies_perfect_scores (perfect_data 6)
              {| scores := map perfect_record (seq 0 6);
                 average := of_Z 100; highest := of_Z 100; lowest := of_Z 100;
                 totalAttempts := 6; passRate := of_Z 100;
                 trend := stable; distribution := None |})
    as (Hin & _ & _ & _ & Hrisk).
  - reflexivity.
  - simpl. lia.
  - apply (bool_decide_unpack _). vm_compute. reflexivity.
  - split; [exact Hin | exact Hrisk].
Defined.

(** C3, as stated, fails at five scores: five quizzes, all scored 100,
    raise no anomaly and the risk level is none. *)
Lemma detectAnomalies_five_perfect_counterexample :
  map score_value
    (match data_scores (perfect_data 5) with
     | Some summary => scores summary
     | None => []
     end) = [100; 100; 100; 100; 100] /\
  anomalies (detectAnomalies (perfect_data 5)) = [] /\
  riskLevel (detectAnomalies (perfect_data 5)) = risk_none /\
  ~ In suspicious_scores (anomalies (detectAnomalies (perfect_data 5))).
Proof. vm_compute. repeat split; auto. Qed.

(** ** Durations *)















(** * Further properties *)

(** ** Activity dates and streaks *)

Lemma set_values_fold (l seen : list Z) :
  NoDup seen ->
  let final :=
    fold_left (fun seen d => if bool_decide (d ∈ seen) then seen else seen ++ [d])
      l seen in
  NoDup final /\
  (forall x, x ∈ final <-> x ∈ seen \/ x ∈ l) /\
  (length final <= length seen + length l)%nat.
Proof.
  revert seen. induction l as [|d l IH]; intros seen Hnd; simpl.
  - split; [done|]. split; [|lia]. intros x. rewrite elem_of_nil. tauto.
  - case_bool_decide as Hin.
    + destruct (IH seen Hnd) as (H1 & H2 & H3). split; [done|]. split; [|lia].
      intros x. rewrite H2, elem_of_cons. split; [tauto|].
      intros [?|[->|?]]; tauto.
    + destruct (IH (seen ++ [d])) as (H1 & H2 & H3).
      { apply NoDup_app. split; [done|]. split; [|apply NoDup_singleton].
        intros x Hx ->%list_elem_of_singleton. done. }
      split; [done|]. split.
      * intros x. rewrite H2, elem_of_app, list_elem_of_singleton, elem_of_cons. tauto.
      * rewrite length_app in H3. simpl in H3. lia.
Qed.

Lemma set_values_NoDup (l : list Z) : NoDup (set_values l).
Proof. apply (set_values_fold l []). constructor. Qed.

Lemma set_values_elem_of (l : list Z) (x : Z) : x ∈ set_values l <-> x ∈ l.
Proof.
  destruct (set_values_fold l []) as (_ & H & _); [constructor|].
  unfold set_values. rewrite H, elem_of_nil. tauto.
Qed.

Lemma set_values_length (l : list Z) : (length (set_values l) <= length l)%nat.
Proof.
  destruct (set_values_fold l []) as (_ & _ & H); [constructor|]. exact H.
Qed.

Lemma activityDates_Permutation (statements : list Statement) :
  activityDates statements ≡ₚ
  set_values (map (fun stmt => utc_date (timestamp stmt)) statements).
Proof. apply sort_Permutation. Qed.

Lemma activityDates_sorted (statements : list Statement) :
  StronglySorted Z.le (activityDates statements).
Proof.
  pose proof (sort_sorted (fun x : Z => x)
    (set_values (map (fun stmt => utc_date (timestamp stmt)) statements))) as H.
  rewrite map_id in H. exact H.
Qed.



Lemma current_loop_step (currentDate prevDate : Z) (earlier : list Z) (k : Z) :
  current_loop (currentDate :: prevDate :: earlier) k =
    if eqb (dayDiff prevDate currentDate) (of_Z 1)
    then current_loop (prevDate :: earlier) (k + 1) else k.
Proof. reflexivity. Qed.

Lemma current_loop_acc (dates : list Z) (k : Z) :
  current_loop dates k = current_loop dates 0 + k.
Proof.
  revert k. induction dates as [|c tl IH]; intros k; [simpl; lia|].
  destruct tl as [|p tl']; [simpl; lia|].
  rewrite !current_loop_step.
  destruct (eqb (dayDiff p c) (of_Z 1)); [|lia].
  rewrite (IH (k + 1)), (IH (0 + 1)). lia.
Qed.

Lemma longest_loop_snoc (prevDate : Z) (rest : list Z) (x L c : Z) :
  longest_loop prevDate (rest ++ [x]) L c =
    let '(L1, c1) := longest_loop prevDate rest L c in
    if eqb (dayDiff (List.last rest prevDate) x) (of_Z 1)
    then (L1, c1 + 1) else (Z.max L1 c1, 1).
Proof.
  revert prevDate L c. induction rest as [|y rest IH]; intros prevDate L c.
  - reflexivity.
  - cbn [app longest_loop]. rewrite last_cons.
    destruct (eqb (dayDiff prevDate y) (of_Z 1)); apply IH.
Qed.

Lemma rev_cons_last (prevDate : Z) (rest : list Z) :
  exists earlier, rev (prevDate :: rest) = List.last rest prevDate :: earlier.
Proof.
  revert prevDate. induction rest as [|y rest IH]; intros prevDate.
  - by exists [].
  - destruct (IH y) as [earlier E]. rewrite last_cons.
    exists (earlier ++ [prevDate]).
    change (rev (prevDate :: y :: rest)) with (rev (y :: rest) ++ [prevDate]).
    by rewrite E.
Qed.

(** After the forward loop, [streakCount] is the length of the run of
    consecutive dates that ends the list, which is what the backward
    loop counts; both counters stay within the number of dates. *)
Lemma longest_loop_run (first : Z) (rest : list Z) :
  let '(L, c) := longest_loop first rest 0 1 in
  c = current_loop (rev (first :: rest)) 0 + 1 /\
  0 <= L <= Z.of_nat (length (first :: rest)) /\
  1 <= c <= Z.of_nat (length (first :: rest)).
Proof.
  induction rest as [|x rest IH] using rev_ind.
  - simpl. lia.
  - rewrite longest_loop_snoc.
    destruct (longest_loop first rest 0 1) as [L c].
    destruct IH as (Hc & HL & Hc').
    destruct (rev_cons_last first rest) as [earlier E].
    assert (Hrev : rev (first :: rest ++ [x]) =
                   x :: List.last rest first :: earlier).
    { change (first :: rest ++ [x]) with ((first :: rest) ++ [x]).
      rewrite rev_app_distr. change (rev [x]) with [x].
      change ([x] ++ rev (first :: rest)) with (x :: rev (first :: rest)).
      by rewrite E. }
    rewrite Hrev, current_loop_step.
    assert (Hlen : length (first :: rest ++ [x]) = S (length (first :: rest))).
    { simpl. rewrite length_app. simpl. lia. }
    rewrite Hlen.
    destruct (eqb (dayDiff (List.last rest first) x) (of_Z 1)).
    + rewrite current_loop_acc, <- E. lia.
    + lia.
Qed.

Lemma streak_figures_ordered (statements : list Statement) (now : Z) :
  let streak := run_at now (calculateLearningStreak statements) in
  0 <= current streak /\
  current streak <= longest streak /\
  longest streak <= totalDays streak /\
  totalDays streak <= Z.of_nat (length statements) /\
  (statements <> [] -> 1 <= longest streak).
Proof.
  destruct statements as [|s0 l]; [simpl; repeat split; done|].
  assert (Hlen : (length (activityDates (s0 :: l)) <= length (s0 :: l))%nat).
  { rewrite activityDates_Permutation.
    etransitivity; [apply set_values_length|]. by rewrite length_map. }
  assert (Hne : activityDates (s0 :: l) <> []).
  { intros E.
    assert (H : utc_date (timestamp s0) ∈ activityDates (s0 :: l)).
    { rewrite activityDates_Permutation. apply set_values_elem_of. left. }
    rewrite E in H. by apply elem_of_nil in H. }
  unfold calculateLearningStreak.
  destruct (activityDates (s0 :: l)) as [|first rest] eqn:E; [done|].
  pose proof (longest_loop_run first rest) as Hrun.
  destruct (longest_loop first rest 0 1) as [L c].
  destruct Hrun as (Hc & HL & Hc').
  cbn [run_at current longest totalDays].
  destruct (le _ (of_Z 1)).
  - rewrite <- Hc. repeat split; first [lia | intros; lia | intros; discriminate].
  - repeat split; first [lia | intros; lia | intros; discriminate].
Qed.

(** X2. For every statement list and clock reading, the streak figures
    are ordered: 0 <= current <= longest <= totalDays <= number of
    statements; the longest streak is 0 only for an empty list. *)
Theorem calculateLearningStreak_ordered (statements : list Statement) (now : Z) :
  let streak := run_at now (calculateLearningStreak statements) in
  0 <= current streak /\
  current streak <= longest streak /\
  longest streak <= totalDays streak /\
  totalDays streak <= Z.of_nat (length statements) /\
  (longest streak = 0 <-> statements = []).
Proof.
  intros streak.
  destruct (streak_figures_ordered statements now) as (H1 & H2 & H3 & H4 & H5).
  fold streak in H1, H2, H3, H4, H5.
  repeat (split; [assumption|]). split.
  - intros Hzero. destruct statements as [|s0 l]; [reflexivity|].
    assert (1 <= longest streak) by (apply H5; discriminate). lia.
  - intros Hnil. subst statements. reflexivity.
Qed.






(** ** More on study sessions *)

Lemma close_session_wellformed (cur : OpenSession) :
  open_start cur <= open_end cur -> 1 <= open_activities cur ->
  session_wellformed (close_session cur).
Proof.
  intros Hle Hact. unfold session_wellformed, close_session.
  cbn [session_start session_end activities session_duration].
  split; [done|]. split; [done|].
  unfold div, of_Z. rewrite is_zero_inject_Z.
  change (1000 =? 0) with false. cbv iota.
  eexists. split; [reflexivity|]. rewrite Qred_correct. split; [reflexivity|].
  apply Qle_shift_div_l; [reflexivity|].
  rewrite Qmult_0_l. change 0%Q with (inject_Z 0). rewrite <- Zle_Qle. lia.
Qed.

Lemma sessions_loop_wellformed (rest : list Statement) (cur : OpenSession) :
  StronglySorted Z.le (open_end cur :: map timestamp rest) ->
  open_start cur <= open_end cur -> 1 <= open_activities cur ->
  Forall session_wellformed (sessions_loop rest [] cur) /\
  separated (sessions_loop rest [] cur) /\
  (length (sessions_loop rest [] cur) <= S (length rest))%nat.
Proof.
  revert cur. induction rest as [|x rest IH]; intros cur Hs Hle Hact.
  - simpl. split; [|split; [done|lia]].
    constructor; [|constructor]. by apply close_session_wellformed.
  - cbn [sessions_loop].
    apply StronglySorted_inv in Hs as [Hs Hall].
    pose proof (Forall_inv Hall) as Hx. cbn [map] in Hs.
    destruct (Z.leb_spec (timestamp x - open_end cur) 3600000) as [Hgap|Hgap].
    + destruct (IH {| open_start := open_start cur; open_end := timestamp x;
                      open_activities := open_activities cur + 1 |})
        as (H1 & H2 & H3); simpl; [done|lia|lia|].
      split; [done|]. split; [done|]. simpl. lia.
    + rewrite sessions_loop_acc.
      destruct (IH (new_session (timestamp x))) as (H1 & H2 & H3);
        simpl; [done|lia|lia|].
      destruct (sessions_loop_first rest (new_session (timestamp x)))
        as (s & tl & E & Hst & _); [exact Hs|].
      rewrite E in *. simpl in Hst.
      split; [|split].
      * constructor; [by apply close_session_wellformed|done].
      * simpl. split; [lia|]. exact H2.
      * simpl in *. lia.
Qed.

(** X4. The sessions returned for any statement list are well formed:
    each starts no later than it ends, counts at least one activity and
    lasts (end - start) / 1000 seconds, which is not negative; successive
    sessions are more than 3600000 ms apart; there are no more sessions
    than statements. *)
Theorem calculateStudySessions_wellformed (statements : list Statement) :
  Forall session_wellformed (calculateStudySessions statements) /\
  separated (calculateStudySessions statements) /\
  (length (calculateStudySessions statements) <= length statements)%nat.
Proof.
  destruct statements as [|s0 l]; [simpl; split; [constructor|split; [done|lia]]|].
  destruct (calculateStudySessions_sorted (s0 :: l)) as (first & rest & E & ->);
    [done|].
  pose proof (sort_sorted timestamp (s0 :: l)) as Hs.
  fold (sort_by_time (s0 :: l)) in Hs. rewrite E in Hs.
  destruct (sessions_loop_wellformed rest (new_session (timestamp first)))
    as (H1 & H2 & H3); simpl; [done|lia|lia|].
  split; [done|]. split; [done|].
  assert (Hlen : length (sort_by_time (s0 :: l)) = length (s0 :: l))
    by apply sort_length.
  rewrite E in Hlen. simpl in *. lia.
Qed.

Lemma sessions_loop_timestamps (rest rest' : list Statement)
    (sessions : list Session) (cur : OpenSession) :
  map timestamp rest = map timestamp rest' ->
  sessions_loop rest sessions cur = sessions_loop rest' sessions cur.
Proof.
  revert rest' sessions cur.
  induction rest as [|x rest IH]; intros [|x' rest'] sessions cur E;
    try discriminate; [done|].
  simpl in E. injection E as Ex E. cbn [sessions_loop]. rewrite Ex.
  destruct (timestamp x' - open_end cur <=? 3600000); by apply IH.
Qed.

Lemma sort_by_time_Permutation (l l' : list Statement) :
  l ≡ₚ l' ->
  map timestamp (sort_by_time l) = map timestamp (sort_by_time l').
Proof.
  intros Hp. apply (StronglySorted_unique Z.le).
  - apply sort_sorted.
  - apply sort_sorted.
  - apply fmap_Permutation. unfold sort_by_time.
    by rewrite !sort_Permutation.
Qed.

(** X5. The study sessions do not depend on the order in which the
    statements are passed: two lists that are permutations of one another
    give the same sessions. *)
Theorem calculateStudySessions_order (statements statements' : list Statement) :
  statements ≡ₚ statements' ->
  calculateStudySessions statements = calculateStudySessions statements'.
Proof.
  intros Hp.
  destruct statements as [|s0 l].
  { apply Permutation_nil_l in Hp. by subst. }
  destruct statements' as [|s0' l'].
  { apply Permutation_nil_r in Hp. done. }
  destruct (calculateStudySessions_sorted (s0 :: l)) as (f & r & E & ->); [done|].
  destruct (calculateStudySessions_sorted (s0' :: l')) as (f' & r' & E' & ->); [done|].
  pose proof (sort_by_time_Permutation _ _ Hp) as Hts.
  rewrite E, E' in Hts. simpl in Hts. injection Hts as Hf Hr.
  rewrite Hf. by apply sessions_loop_timestamps.
Qed.

Lemma calculateStudySessions_order_witness :
  calculateStudySessions (session_pair 3600001) =
  calculateStudySessions (rev (session_pair 3600001)).
Proof.
  apply calculateStudySessions_order. apply Permutation_rev.
Defined.

(** ** Order of the statements *)

Lemma activityDates_order (statements statements' : list Statement) :
  statements ≡ₚ statements' ->
  activityDates statements = activityDates statements'.
Proof.
  intros Hp. apply (StronglySorted_unique Z.le).
  - apply activityDates_sorted.
  - apply activityDates_sorted.
  - rewrite !activityDates_Permutation.
    apply NoDup_Permutation; [apply set_values_NoDup..|].
    intros x. rewrite !set_values_elem_of. by rewrite Hp.
Qed.

(** X6. The learning streak does not depend on the order of the
    statements: under the same clock reading, two lists that are
    permutations of one another give the same current streak, longest
    streak and number of active days. *)
Theorem calculateLearningStreak_order
    (statements statements' : list Statement) (now : Z) :
  statements ≡ₚ statements' ->
  run_at now (calculateLearningStreak statements) =
  run_at now (calculateLearningStreak statements').
Proof.
  intros Hp. pose proof (activityDates_order _ _ Hp) as Hd.
  destruct statements as [|s0 l].
  { apply Permutation_nil_l in Hp. by subst. }
  destruct statements' as [|s0' l'].
  { apply Permutation_nil_r in Hp. done. }
  unfold calculateLearningStreak. by rewrite Hd.
Qed.

Lemma calculateLearningStreak_order_witness :
  run_at 1704974400000 (calculateLearningStreak streak_scenario) =
  run_at 1704974400000 (calculateLearningStreak (rev streak_scenario)).
Proof.
  apply calculateLearningStreak_order. apply Permutation_rev.
Defined.

Lemma progress_sets (statements : list Statement) :
  let acc := fold_left progress_step statements
               {| acc_completedActivities := ∅; acc_totalActivities := ∅;
                  moduleAcc := [] |} in
  acc_completedActivities acc = completed_ids statements /\
  acc_totalActivities acc = seen_ids statements.
Proof.
  destruct (progress_fold_sets statements
              {| acc_completedActivities := ∅; acc_totalActivities := ∅;
                 moduleAcc := [] |}) as [Ht Hc].
  simpl in Ht, Hc. cbv zeta. rewrite Ht, Hc.
  by rewrite !(left_id_L ∅ (∪)).
Qed.

(** X7. The progress figures do not depend on the order of the
    statements: two lists that are permutations of one another give the
    same completed and total counts, percentage and remainder.  (The
    field [lastActivity] is the timestamp of the first statement passed,
    so it does depend on the order.) *)
Theorem calculateProgress_order (statements statements' : list Statement) :
  statements ≡ₚ statements' ->
  completed (calculateProgress statements) =
    completed (calculateProgress statements') /\
  total (calculateProgress statements) =
    total (calculateProgress statements') /\
  percentage (calculateProgress statements) =
    percentage (calculateProgress statements') /\
  remaining (calculateProgress statements) =
    remaining (calculateProgress statements').
Proof.
  intros Hp.
  assert (Hseen : seen_ids statements = seen_ids statements').
  { unfold seen_ids. apply set_eq. intros x.
    rewrite !elem_of_list_to_set. by rewrite Hp. }
  assert (Hdone : completed_ids statements = completed_ids statements').
  { unfold completed_ids. apply set_eq. intros x.
    rewrite !elem_of_list_to_set, !list_elem_of_In, !in_map_iff.
    split; intros (s & <- & Hs%filter_In); exists s; (split; [done|]);
      apply filter_In; (split; [|tauto]); destruct Hs as [Hs _];
      apply list_elem_of_In; apply list_elem_of_In in Hs.
    - by rewrite <- Hp.
    - by rewrite Hp. }
  unfold calculateProgress. cbn [completed total percentage remaining].
  destruct (progress_sets statements) as [-> ->].
  destruct (progress_sets statements') as [-> ->].
  by rewrite Hseen, Hdone.
Qed.

Lemma calculateProgress_order_witness :
  percentage (calculateProgress progress_scenario) =
  percentage (calculateProgress (rev progress_scenario)).
Proof.
  apply calculateProgress_order. apply Permutation_rev.
Defined.

(** ** Sorting with any comparator *)

Section SortBy.
Context {A : Type} (cmp : A -> A -> Z).
Hypothesis cmp_total : forall a b, 0 < cmp a b -> cmp b a <= 0.
Hypothesis cmp_trans : forall a b c, cmp a b <= 0 -> cmp b c <= 0 -> cmp a c <= 0.

Lemma sort_insert_by_In (x z : A) (l : list A) :
  In z (sort_insert cmp x l) <-> z = x \/ In z l.
Proof.
  induction l as [|y l IH]; simpl; [naive_solver|].
  destruct (cmp y x <=? 0); simpl; [rewrite IH|]; naive_solver.
Qed.

Lemma sort_insert_by_sorted (x : A) (l : list A) :
  StronglySorted (fun a b => cmp a b <= 0) l ->
  StronglySorted (fun a b => cmp a b <= 0) (sort_insert cmp x l).
Proof.
  induction l as [|y l IH]; simpl; intros Hs.
  - repeat constructor.
  - apply StronglySorted_inv in Hs as [Hs Hy].
    destruct (Z.leb_spec (cmp y x) 0) as [Hle|Hgt].
    + constructor; [auto|].
      apply List.Forall_forall. intros z Hz.
      apply sort_insert_by_In in Hz as [->|Hz]; [done|].
      rewrite List.Forall_forall in Hy. auto.
    + constructor; [by constructor|].
      constructor; [by apply cmp_total|].
      eapply List.Forall_impl; [|exact Hy]. simpl. intros z Hz.
      eapply cmp_trans; [|exact Hz]. by apply cmp_total.
Qed.

Lemma sort_by_sorted (l : list A) :
  StronglySorted (fun a b => cmp a b <= 0) (sort cmp l).
Proof.
  unfold sort. generalize (@nil A) (SSorted_nil (fun a b => cmp a b <= 0)).
  induction l as [|x l IH]; intros acc Hacc; simpl; [done|].
  apply IH, sort_insert_by_sorted, Hacc.
Qed.
End SortBy.

Lemma StronglySorted_weaken {A : Type} (R R' : A -> A -> Prop) (l : list A) :
  (forall a b, R a b -> R' a b) -> StronglySorted R l -> StronglySorted R' l.
Proof.
  intros HR. induction 1 as [|x l Hs IH Hall]; constructor; [done|].
  eapply List.Forall_impl; [|exact Hall]. auto.
Qed.


(** ** Module completions *)




(** ** The groups of attempts *)






Lemma fold_max_spec (l : list Z) (z : Z) :
  In (fold_left Z.max l z) (z :: l) /\
  Forall (fun x => x <= fold_left Z.max l z) (z :: l).
Proof.
  revert z. induction l as [|x l IH]; intros z.
  - simpl. split; [by left|]. constructor; [lia|constructor].
  - cbn [fold_left]. destruct (IH (Z.max z x)) as [Hin Hall]. split.
    + destruct Hin as [E|Hin]; [|by right; right].
      rewrite <- E. destruct (Z.max_spec z x) as [[_ ->]|[_ ->]];
        [right; by left | by left].
    + apply Forall_cons in Hall as [Hm Hall].
      constructor; [lia|]. constructor; [lia|exact Hall].
Qed.

(** [Math.max] of a non-empty list of integers is its greatest element *)
Lemma Math_max_of_Z (x : Z) (l : list Z) :
  exists m, Math_max (map of_Z (x :: l)) = of_Z m /\
            In m (x :: l) /\ Forall (fun y => y <= m) (x :: l).
Proof.
  exists (fold_left Z.max l x). split; [|apply fold_max_spec].
  unfold Math_max. cbn [map fold_left].
  change (max2 NegInfinity (of_Z x)) with (of_Z x). apply Math_max_fold.
Qed.













(** ** Figures of the score summary *)

Lemma Qred_inject_Z (z : Z) : Qred (inject_Z z) = inject_Z z.
Proof. apply Qcanon.Qred_identity. simpl. apply Z.gcd_1_r. Qed.

Lemma add_of_Z (a b : Z) : add (of_Z a) (of_Z b) = of_Z (a + b).
Proof.
  unfold add, of_Z. f_equal. rewrite <- (Qred_inject_Z (a + b)).
  apply Qred_complete. by rewrite inject_Z_plus.
Qed.

Lemma sum_fold_of_Z (l : list Z) (z : Z) :
  fold_left add (map of_Z l) (of_Z z) = of_Z (fold_left Z.add l z).
Proof.
  revert z. induction l as [|x l IH]; intros z; cbn [map fold_left]; [done|].
  rewrite add_of_Z. apply IH.
Qed.

Lemma sum_of_Z (l : list Z) : sum (map of_Z l) = of_Z (fold_left Z.add l 0).
Proof. apply (sum_fold_of_Z l 0). Qed.












Lemma filter_length_bound {A : Type} (f : A -> bool) (l : list A) :
  (length (List.filter f l) <= length l)%nat.
Proof. induction l as [|x l IH]; simpl; [lia|]. destruct (f x); simpl; lia. Qed.








(** ** Bounds of the data quality *)

Lemma result_percentage_bounds (statements : list Statement) :
  (0 <= result_percentage statements <= 100)%Q.
Proof.
  unfold result_percentage. destruct statements as [|s0 l]; [split; discriminate|].
  pose proof (filter_length_bound (fun s => bool_decide (is_Some (result s))) (s0 :: l)) as H.
  fold (with_result (s0 :: l)) in H.
  set (w := Z.of_nat (length (with_result (s0 :: l)))) in *.
  set (n := Z.of_nat (length (s0 :: l))) in *.
  assert (Hn : 0 < n) by (subst n; simpl; lia).
  assert (Hw : 0 <= w <= n) by (subst w n; lia).
  assert (Hq : (0 < inject_Z n)%Q) by (change 0%Q with (inject_Z 0); rewrite <- Zlt_Qlt; lia).
  assert (Hx : (0 <= inject_Z w / inject_Z n <= 1)%Q).
  { split.
    - apply Qle_shift_div_l; [done|]. rewrite Qmult_0_l.
      change 0%Q with (inject_Z 0). rewrite <- Zle_Qle. lia.
    - apply Qle_shift_div_r; [done|]. rewrite Qmult_1_l.
      rewrite <- Zle_Qle. lia. }
  lra.
Qed.

Lemma linear_freshness_bounds (dq : Q) : (0 <= linear_freshness dq <= 100)%Q.
Proof.
  unfold linear_freshness. split; [apply Q.le_max_l|].
  apply Q.max_lub; [discriminate|].
  pose proof (Q.le_max_l 0 (dq - 7)). lra.
Qed.

Lemma linear_freshness_full (dq : Q) :
  (linear_freshness dq == 100 <-> dq <= 7)%Q.
Proof.
  split; [|apply linear_freshness_fresh].
  intros H. destruct (Qlt_le_dec 7 dq) as [Hlt|]; [|done].
  rewrite (linear_freshness_stale dq Hlt) in H.
  destruct (Qle_bool (100 - (dq - 7) * 10) 0); lra.
Qed.

Lemma round_half_up_mean_bounds (c f : Q) :
  (0 <= c <= 100)%Q -> (0 <= f <= 100)%Q ->
  0 <= round_half_up ((c + f) / 2) <= 100.
Proof.
  intros Hc Hf. unfold round_half_up.
  assert (H : (0 <= (c + f) / 2 <= 100)%Q).
  { split; [apply Qle_shift_div_l | apply Qle_shift_div_r]; lra. }
  split.
  - change 0 with (Qfloor 0). apply Qfloor_resp_le. lra.
  - change 100 with (Qfloor (201 # 2)). apply Qfloor_resp_le. lra.
Qed.

Lemma quality_results_issues (statements : list Statement) (f : Q)
    (found : list string) :
  issues (quality_results statements (Fin f) found) =
    if Qle_bool 80 (result_percentage statements) then found
    else found ++ ["Some activities missing result data"%string].
Proof.
  unfold quality_results. cbn [issues]. fold (with_result statements).
  assert (Hrc : exists r,
    (if (0 <? length statements)%nat
     then mul (div (of_nat (length (with_result statements)))
                 (of_nat (length statements))) (of_Z 100)
     else of_Z 0) = Fin r /\ r == result_percentage statements).
  { destruct statements as [|s0 l]; [exists 0%Q; done|].
    change (0 <? length (s0 :: l))%nat with true. cbv iota.
    unfold of_nat, of_Z, div. rewrite is_zero_inject_Z.
    change (Z.of_nat (length (s0 :: l)) =? 0) with false. cbv iota.
    eexists. split; [reflexivity|].
    unfold result_percentage. rewrite !Qred_correct. reflexivity. }
  destruct Hrc as (r & -> & Hr).
  unfold lt, gt, of_Z, inject_Z.
  assert (E : Qle_bool (80 # 1) r = Qle_bool 80 (result_percentage statements)).
  { destruct (Qle_bool 80 (result_percentage statements)) eqn:E.
    - apply Qle_bool_iff. apply Qle_bool_iff in E. by rewrite Hr.
    - apply not_true_is_false. intros H%Qle_bool_iff.
      rewrite Hr in H. apply Qle_bool_iff in H. congruence. }
  rewrite E. by destruct (Qle_bool 80 (result_percentage statements)).
Qed.

Lemma assessDataQuality_cases (s0 : Statement) (l : list Statement) (now : Z) :
  exists dq f found,
    f == linear_freshness dq /\
    (found = [] <-> (dq <= 7)%Q) /\
    run_at now (assessDataQuality (s0 :: l)) =
      quality_results (s0 :: l) (Fin f) found.
Proof.
  unfold assessDataQuality. cbn [run_at].
  unfold Math_max. cbn [map fold_left].
  change (max2 NegInfinity (of_Z (timestamp s0))) with (of_Z (timestamp s0)).
  rewrite <- (map_map timestamp of_Z), Math_max_fold.
  destruct (daysSinceLatest_value now
              (fold_left Z.max (map timestamp l) (timestamp s0)))
    as (dq & -> & _).
  pose proof (freshness_value dq) as Hf.
  exists dq.
  destruct (gt (Fin dq) (of_Z 7)) eqn:E.
  - apply same_Fin_inv in Hf as (f & -> & Hf).
    exists f, ["Data is more than a week old"%string].
    split; [done|]. split; [|done]. split; [done|].
    intros Hle. unfold gt, of_Z, inject_Z in E.
    apply Qle_bool_iff in Hle. rewrite Hle in E. discriminate.
  - exists 100%Q, []. split; [exact Hf|]. split; [|done]. split; [|done].
    intros _. unfold gt, of_Z, inject_Z in E.
    apply negb_false_iff in E. by apply Qle_bool_iff.
Qed.

(** X15. For every statement list and clock reading, completeness,
    freshness and the overall score of the data quality lie between 0
    and 100, and no issue is reported exactly when completeness and
    freshness are both 100. *)
Theorem assessDataQuality_bounds (statements : list Statement) (now : Z) :
  let q := run_at now (assessDataQuality statements) in
  exists (c f : Q) (k : Z),
    completeness q = Fin c /\ freshness q = Fin f /\ quality_score q = of_Z k /\
    (0 <= c <= 100)%Q /\ (0 <= f <= 100)%Q /\ 0 <= k <= 100 /\
    (issues q = [] <-> (c == 100 /\ f == 100)%Q).
Proof.
  intros q. subst q.
  pose proof (result_percentage_bounds statements) as Hrp.
  assert (Hmain : forall (f : Q) (found : list string),
    (0 <= f <= 100)%Q -> (found = [] <-> f == 100) ->
    let q := quality_results statements (Fin f) found in
    exists (c f : Q) (k : Z),
      completeness q = Fin c /\ freshness q = Fin f /\ quality_score q = of_Z k /\
      (0 <= c <= 100)%Q /\ (0 <= f <= 100)%Q /\ 0 <= k <= 100 /\
      (issues q = [] <-> (c == 100 /\ f == 100)%Q)).
  { intros f found Hf Hfound q.
    destruct (quality_results_value statements f found) as (Hfr & c & Hc & Hv & Hs).
    fold q in Hfr, Hc, Hs.
    assert (Hcb : (0 <= c <= 100)%Q).
    { rewrite Hv. destruct (Qle_bool 80 (result_percentage statements));
        [split; discriminate | done]. }
    exists c, f, (round_half_up ((c + f) / 2)).
    split; [done|]. split; [done|]. split; [done|]. split; [done|].
    split; [done|]. split; [by apply round_half_up_mean_bounds|].
    subst q. rewrite quality_results_issues, Hv.
    destruct (Qle_bool 80 (result_percentage statements)) eqn:E.
    - rewrite Hfound. split; [by intros ?|by intros [_ ?]].
    - split.
      + intros H. by destruct found.
      + intros [H _]. exfalso.
        assert (Hn : ~ (80 <= result_percentage statements)%Q).
        { intros Hle%Qle_bool_iff. congruence. }
        apply Hn. rewrite H. discriminate. }
  destruct statements as [|s0 l].
  - cbn [assessDataQuality run_at].
    apply (Hmain (inject_Z 0)); [split; discriminate|].
    split; [discriminate|]. intros H. discriminate H.
  - destruct (assessDataQuality_cases s0 l now) as (dq & f & found & Hf & Hfound & ->).
    apply Hmain.
    + rewrite Hf. apply linear_freshness_bounds.
    + rewrite Hfound, Hf. symmetry. apply linear_freshness_full.
Qed.

(** ** Risk level of any anomaly list *)

Lemma count_severity_fold (anomalies : list Anomaly) (counts : gmap string Z)
    (sev : string) :
  fold_left count_severity anomalies counts !! sev =
    match counts !! sev with
    | Some k => Some (k + severity_count sev anomalies)
    | None => if severity_count sev anomalies =? 0 then None
              else Some (severity_count sev anomalies)
    end.
Proof.
  revert counts. induction anomalies as [|a l IH]; intros counts.
  - unfold severity_count. simpl. destruct (counts !! sev); [f_equal; lia|done].
  - cbn [fold_left]. rewrite IH. unfold count_severity at 1.
    unfold severity_count. cbn [List.filter].
    destruct (bool_decide_reflect (severity a = sev)) as [->|Hne].
    + rewrite lookup_insert_eq. simpl length.
      destruct (counts !! sev) as [k|]; simpl; [f_equal; lia|].
      destruct (Z.eqb_spec (Z.of_nat (S (length (List.filter
        (fun a0 => bool_decide (severity a0 = sev)) l)))) 0); [lia|].
      f_equal. lia.
    + rewrite lookup_insert_ne by done. done.
Qed.

Lemma count_exceeds_fold (anomalies : list Anomaly) (sev : string) (n : Z) :
  0 <= n ->
  count_exceeds (fold_left count_severity anomalies ∅) sev n =
    (n <? severity_count sev anomalies).
Proof.
  intros Hn. unfold count_exceeds. rewrite count_severity_fold, lookup_empty.
  destruct (Z.eqb_spec (severity_count sev anomalies) 0) as [E|_]; [|done].
  rewrite E. symmetry. apply Z.ltb_ge. lia.
Qed.

(** X16. For every list of anomalies, whatever their severities:
    the risk level is none exactly for the empty list; high exactly when
    some anomaly is of severity high or at least two are medium; medium
    exactly when none is high and exactly one is medium; low exactly when
    the list is not empty and holds no high and no medium anomaly. *)
Theorem calculateRiskLevel_levels (anomalies : list Anomaly) :
  let high := severity_count "high" anomalies in
  let medium := severity_count "medium" anomalies in
  (calculateRiskLevel anomalies = risk_none <-> anomalies = []) /\
  (calculateRiskLevel anomalies = risk_high <-> 1 <= high \/ 2 <= medium) /\
  (calculateRiskLevel anomalies = risk_medium <-> high = 0 /\ medium = 1) /\
  (calculateRiskLevel anomalies = risk_low <->
     anomalies <> [] /\ high = 0 /\ medium = 0).
Proof.
  intros high medium.
  assert (Hh : 0 <= high) by (unfold high, severity_count; lia).
  assert (Hm : 0 <= medium) by (unfold medium, severity_count; lia).
  destruct anomalies as [|a l].
  { unfold high, medium, severity_count in *. simpl.
    repeat split; intros; try done; try lia; try tauto. }
  unfold calculateRiskLevel.
  rewrite !count_exceeds_fold by lia. fold high medium.
  destruct (Z.ltb_spec 0 high), (Z.ltb_spec 1 medium), (Z.ltb_spec 0 medium);
    repeat split; intros; try done; try lia; try tauto.
Qed.

(** ** Period figures and changes *)



Lemma Math_round_of_Z (z : Z) : Math_round (of_Z z) = of_Z z.
Proof.
  unfold Math_round, of_Z, round_half_up. do 2 f_equal.
  unfold Qfloor, Qplus, inject_Z. simpl.
  rewrite Z.mul_1_r. replace (z * 2 + 1) with (1 + z * 2) by lia.
  rewrite Z.div_add by lia. reflexivity.
Qed.






Lemma window_partition (statements : list Statement) (start p : Z) :
  0 <= p ->
  (length (List.filter (fun s => (start <=? timestamp s)%Z) statements) +
   length (List.filter (fun s => ((start - p <=? timestamp s) &&
                                  (timestamp s <? start))%Z) statements))%nat =
  length (List.filter (fun s => start - p <=? timestamp s) statements).
Proof.
  intros Hp. induction statements as [|s l IH]; [done|]. simpl.
  destruct (Z.leb_spec start (timestamp s)), (Z.leb_spec (start - p) (timestamp s)),
    (Z.ltb_spec (timestamp s) start); simpl; lia.
Qed.

(** X19. A period comparison reads the clock once and splits the
    statements of the last two period lengths: those from [now - period]
    on count for the current period (statements in the future included),
    those in the period length before it for the previous one, and no
    statement counts twice: the two totals add up to the number of
    statements from [now - 2 * period] on.  A period name other than
    week, month or quarter is treated as a week. *)
Theorem createPeriodComparison_windows
    (statements : list Statement) (period : string) (now : Z) :
  let r := run_at now (createPeriodComparison statements period) in
  clock_reads now (createPeriodComparison statements period) = 1%nat /\
  (exists nc np : nat,
     Period.totalActivities (Period.current r) = of_nat nc /\
     Period.totalActivities (Period.previous r) = of_nat np /\
     nc = length (List.filter
                    (fun s => now - period_ms period <=? timestamp s)
                    statements) /\
     (nc + np)%nat =
       length (List.filter
                 (fun s => now - 2 * period_ms period <=? timestamp s)
                 statements)) /\
  Period.period r = period /\
  (period_ms period = 7 * MS_PER_DAY \/
   (period = "month"%string /\ period_ms period = 30 * MS_PER_DAY) \/
   (period = "quarter"%string /\ period_ms period = 90 * MS_PER_DAY)).
Proof.
  intros r. split; [reflexivity|]. split; [|split; [reflexivity|]].
  - eexists _, _. split; [reflexivity|]. split; [reflexivity|].
    split; [reflexivity|].
    assert (Hp : 0 <= period_ms period).
    { unfold period_ms. repeat case_bool_decide; lia. }
    pose proof (window_partition statements (now - period_ms period)
                  (period_ms period) Hp) as H.
    replace (now - period_ms period - period_ms period)
      with (now - 2 * period_ms period) in H by lia.
    exact H.
  - unfold period_ms, MS_PER_DAY. repeat case_bool_decide; subst;
      first [ left; lia | right; left; split; [done|lia]
            | right; right; split; [done|lia] ].
Qed.

(** ** The timeline *)


























(** ** The engagement summary *)




(** ** Activity types of a day *)





(** ** Formatted durations *)

Lemma Qfloor_quotient (n : Z) (d : positive) :
  Qfloor (inject_Z n / inject_Z (Z.pos d)) = n / Z.pos d.
Proof.
  transitivity (Qfloor (n # d)); [|reflexivity].
  apply Qfloor_comp. by rewrite <- (Qmake_Qdiv n d).
Qed.

Lemma floor_quotient (n : Z) (d : positive) :
  Math_floor (div (of_Z n) (of_Z (Z.pos d))) = of_Z (n / Z.pos d).
Proof.
  unfold div, of_Z. rewrite is_zero_inject_Z. simpl. unfold of_Z.
  do 2 f_equal. rewrite <- Qfloor_quotient.
  apply Qfloor_comp. by rewrite Qred_correct.
Qed.

Lemma truncate_quotient (n : Z) (d : positive) :
  truncate (inject_Z n / inject_Z (Z.pos d)) = Z.quot n (Z.pos d).
Proof.
  unfold truncate.
  assert (Hq : (inject_Z n / inject_Z (Z.pos d) == n # d)%Q)
    by (by rewrite <- (Qmake_Qdiv n d)).
  destruct (Qle_bool 0 (inject_Z n / inject_Z (Z.pos d))) eqn:E.
  - apply Qle_bool_iff in E. rewrite Hq in E.
    assert (0 <= n) by (unfold Qle in E; simpl in E; lia).
    rewrite Qfloor_quotient. symmetry. apply Z.quot_div_nonneg; lia.
  - assert (Hn : n < 0).
    { destruct (Z_lt_le_dec n 0) as [|Hge]; [done|].
      assert (Qle_bool 0 (inject_Z n / inject_Z (Z.pos d)) = true); [|congruence].
      apply Qle_bool_iff. rewrite Hq. unfold Qle. simpl. lia. }
    unfold Qceiling.
    assert (Ho : (- (inject_Z n / inject_Z (Z.pos d)) ==
                  inject_Z (- n) / inject_Z (Z.pos d))%Q).
    { rewrite inject_Z_opp. field. unfold Qeq. simpl. lia. }
    rewrite (Qfloor_comp _ _ Ho), Qfloor_quotient.
    rewrite <- Z.quot_div_nonneg by lia.
    rewrite Z.quot_opp_l by lia. lia.
Qed.

Lemma rem_of_Z (n : Z) (d : positive) :
  rem (of_Z n) (of_Z (Z.pos d)) = of_Z (Z.rem n (Z.pos d)).
Proof.
  unfold rem, of_Z. rewrite is_zero_inject_Z. simpl. f_equal.
  rewrite truncate_quotient.
  rewrite <- (Qred_inject_Z (Z.rem n (Z.pos d))). apply Qred_complete.
  rewrite (Z.rem_eq n (Z.pos d)) by lia.
  unfold Qeq, Qminus, Qplus, Qmult, Qopp, inject_Z. simpl. lia.
Qed.

Lemma gt_of_Z (a b : Z) : gt (of_Z a) (of_Z b) = (b <? a).
Proof.
  unfold gt, of_Z. rewrite (Qle_bool_inject_Z _ a) by reflexivity.
  destruct (Z.leb_spec a b), (Z.ltb_spec b a); simpl; try done; lia.
Qed.

(** X25. A whole number of seconds is shown by its two largest units:
    from one hour on as the hours and the minutes of the rest of the
    hour, the seconds being dropped; from one minute on as minutes and
    seconds; below as seconds alone.  A negative number falls in the
    last case, shown as its remainder by 60. *)
Theorem formatDuration_units (seconds : Z) :
  formatDuration (of_Z seconds) =
    if 3600 <=? seconds
    then HoursMinutes (of_Z (seconds / 3600)) (of_Z (seconds mod 3600 / 60))
    else if 60 <=? seconds
    then MinutesSeconds (of_Z (seconds / 60)) (of_Z (seconds mod 60))
    else SecondsOnly (of_Z (Z.rem seconds 60)).
Proof.
  unfold formatDuration.
  rewrite (floor_quotient seconds 3600), !rem_of_Z.
  rewrite (floor_quotient (Z.rem seconds 3600) 60), !gt_of_Z.
  destruct (Z.leb_spec 3600 seconds) as [Hh|Hh].
  - rewrite (proj2 (Z.ltb_lt 0 (seconds / 3600)))
      by (apply Z.div_str_pos; lia).
    by rewrite Z.rem_mod_nonneg by lia.
  - destruct (Z.ltb_spec 0 (seconds / 3600)) as [Hp|_].
    { assert (seconds / 3600 < 1); [|lia].
      apply Z.div_lt_upper_bound; lia. }
    destruct (Z.leb_spec 60 seconds) as [Hm|Hm].
    + rewrite !Z.rem_mod_nonneg by lia.
      rewrite (Z.mod_small seconds 3600) by lia.
      by rewrite (proj2 (Z.ltb_lt 0 (seconds / 60)))
        by (apply Z.div_str_pos; lia).
    + destruct (Z.ltb_spec 0 (Z.rem seconds 3600 / 60)) as [Hp|_]; [|done].
      assert (Z.rem seconds 3600 / 60 < 1); [|lia].
      apply Z.div_lt_upper_bound; [lia|].
      destruct (Z_lt_le_dec seconds 0).
      * pose proof (Z.rem_nonpos seconds 3600). lia.
      * rewrite Z.rem_small; lia.
Qed.

(** ** The anomaly report *)

Lemma score_anomalies_exclusive (summary : ScoreSummary) :
  score_anomalies summary <> [suspicious_scores; large_improvement].
Proof.
  unfold score_anomalies. cbv zeta.
  set (scoreList := map score_value (scores summary)).
  destruct ((5 <? length scoreList)%nat &&
            forallb (fun s => s =? 100) scoreList) eqn:Hperfect.
  - apply andb_true_iff in Hperfect as [_ Hall].
    assert (Hsorted : Forall (fun x => x = 100)
                        (sort (fun a b => a - b) scoreList)).
    { apply List.Forall_forall. intros x Hx.
      apply Z.eqb_eq. revert x Hx. apply forallb_forall.
      rewrite forallb_forall in Hall |- *. intros x Hx. apply Hall.
      eapply Permutation_in; [apply sort_Permutation|exact Hx]. }
    rewrite (all_hundred_spread _ Hsorted), andb_false_r.
    intros H. apply (f_equal length) in H. discriminate H.
  - match goal with |- context [if ?b then _ else _] => destruct b end;
      intros H; apply (f_equal length) in H; discriminate H.
Qed.

Lemma detectAnomalies_lists (data : DashboardData) :
  In (anomalies (detectAnomalies data))
    [ []; [activity_spike];
      [suspicious_scores]; [suspicious_scores; activity_spike];
      [large_improvement]; [large_improvement; activity_spike] ].
Proof.
  unfold detectAnomalies. cbn [anomalies].
  destruct (data_scores data) as [summary|], (data_timeline data) as [timeline|];
    try (pose proof (score_anomalies_exclusive summary) as Hex;
         destruct (score_anomalies_cases summary) as [E|[E|[E|E]]];
         rewrite E in Hex |- *; try done; clear Hex);
    try (destruct (timeline_anomalies_cases timeline) as [E'|E']; rewrite E');
    simpl; tauto.
Qed.

(** X26. Whatever the argument, the anomaly report lists at most two
    anomalies: perfect scores and a large improvement are never reported
    together.  [hasAnomalies] holds exactly when the risk level is not
    none; the risk level is medium exactly when the perfect scores are
    reported, and low exactly when something else only is reported. *)
Theorem detectAnomalies_report (data : DashboardData) :
  let report := detectAnomalies data in
  (length (anomalies report) <= 2)%nat /\
  ~ (In suspicious_scores (anomalies report) /\
     In large_improvement (anomalies report)) /\
  (hasAnomalies report = true <-> riskLevel report <> risk_none) /\
  (riskLevel report = risk_medium <-> In suspicious_scores (anomalies report)) /\
  (riskLevel report = risk_low <->
     anomalies report <> [] /\ ~ In suspicious_scores (anomalies report)).
Proof.
  intros report.
  assert (Hrisk : riskLevel report = calculateRiskLevel (anomalies report))
    by reflexivity.
  assert (Hhas : hasAnomalies report = (0 <? length (anomalies report))%nat)
    by reflexivity.
  rewrite Hrisk, Hhas.
  pose proof (detectAnomalies_lists data) as Hcases. fold report in Hcases.
  clear Hrisk Hhas. generalize dependent (anomalies report). intros l Hcases.
  cbn [In] in Hcases.
  destruct Hcases as [E|[E|[E|[E|[E|[E|[]]]]]]]; rewrite <- E;
    (split; [simpl; lia|]);
    (split; [simpl; intros [H1 H2];
             repeat (destruct H1 as [H1|H1]; try discriminate H1);
             repeat (destruct H2 as [H2|H2]; try discriminate H2); done|]);
    vm_compute; repeat split; intros; try done; try tauto;
    try (intuition discriminate).
Qed.

(** ** The activity spike *)

Lemma fold_add_total (l : list Z) (z : Z) :
  fold_left Z.add l z = z + fold_right Z.add 0 l.
Proof.
  revert z. induction l as [|x l IH]; intros z; simpl; [lia|].
  rewrite IH. lia.
Qed.

Lemma spike_test (m total : Z) (n : positive) :
  gt (of_Z m) (mul (div (of_Z total) (of_Z (Z.pos n))) (of_Z 5)) =
    (5 * total <? Z.pos n * m).
Proof.
  unfold div, of_Z. rewrite is_zero_inject_Z. simpl.
  match goal with |- negb ?b = _ => destruct b eqn:E end; simpl; symmetry.
  - apply Z.ltb_ge. apply Qle_bool_iff in E.
    rewrite !Qred_correct, <- (Qmake_Qdiv total n) in E.
    unfold Qle in E. simpl in E. lia.
  - apply Z.ltb_lt. destruct (Z_lt_le_dec (5 * total) (Z.pos n * m)) as [|Hle]; [done|].
    assert (Qle_bool (inject_Z m)
              (Qred (Qred (inject_Z total / inject_Z (Z.pos n)) * inject_Z 5)) = true);
      [|congruence].
    apply Qle_bool_iff.
    rewrite !Qred_correct, <- (Qmake_Qdiv total n).
    unfold Qle. simpl. lia.
Qed.

Lemma timeline_anomalies_test (d : DayBucket) (timeline : list DayBucket) :
  exists m,
    In m (map totalActivities (d :: timeline)) /\
    Forall (fun c => c <= m) (map totalActivities (d :: timeline)) /\
    timeline_anomalies (d :: timeline) =
      if 5 * total_of totalActivities (d :: timeline) <?
         Z.of_nat (length (d :: timeline)) * m
      then [activity_spike] else [].
Proof.
  destruct (Math_max_of_Z (totalActivities d) (map totalActivities timeline))
    as (m & Hmax & Hin & Hall).
  exists m. split; [exact Hin|]. split; [exact Hall|].
  unfold timeline_anomalies. cbv zeta.
  rewrite <- (map_map totalActivities of_Z).
  change (map totalActivities (d :: timeline))
    with (totalActivities d :: map totalActivities timeline).
  rewrite Hmax, sum_of_Z, fold_add_total, Z.add_0_l.
  rewrite !length_map. unfold of_nat.
  change (fold_right Z.add 0 (totalActivities d :: map totalActivities timeline))
    with (total_of totalActivities (d :: timeline)).
  replace (length (totalActivities d :: map totalActivities timeline))
    with (length (d :: timeline)) by (simpl; by rewrite length_map).
  destruct (Z.of_nat (length (d :: timeline))) as [|n|n] eqn:En;
    [simpl in En; lia| |lia].
  by rewrite spike_test.
Qed.

(** X27. An activity spike is reported exactly when the busiest day of
    the timeline has more than five times the mean of the days'
    activity counts; no spike is reported on an empty timeline, nor on a
    timeline of five days or fewer whose counts are not negative. *)
Theorem timeline_anomalies_spike (timeline : list DayBucket) :
  let counts := map totalActivities timeline in
  let n := Z.of_nat (length timeline) in
  (timeline_anomalies timeline = [activity_spike] <->
   exists m, In m counts /\ Forall (fun c => c <= m) counts /\
             5 * total_of totalActivities timeline < n * m) /\
  (Forall (fun c => 0 <= c) counts -> (length timeline <= 5)%nat ->
   timeline_anomalies timeline = []).
Proof.
  intros counts n. destruct timeline as [|d l].
  { split; [|done]. split; [done|]. by intros (m & [] & _). }
  destruct (timeline_anomalies_test d l) as (m & Hin & Hall & ->).
  fold counts n in Hin, Hall |- *. split.
  - destruct (Z.ltb_spec (5 * total_of totalActivities (d :: l)) (n * m))
      as [Hlt|Hge].
    + split; [|done]. intros _. by exists m.
    + split; [done|]. intros (m' & Hin' & Hall' & Hlt).
      assert (m' = m); [|subst m'; lia].
      rewrite List.Forall_forall in Hall, Hall'.
      pose proof (Hall _ Hin'). pose proof (Hall' _ Hin). lia.
  - intros Hpos Hlen.
    destruct (Z.ltb_spec (5 * total_of totalActivities (d :: l)) (n * m))
      as [Hlt|Hge]; [|done].
    assert (Hm : m <= total_of totalActivities (d :: l)).
    { unfold total_of. fold counts. clear -Hin Hpos.
      induction counts as [|c cs IH]; [done|].
      apply Forall_cons in Hpos as [Hc Hcs]. simpl.
      assert (0 <= fold_right Z.add 0 cs).
      { clear -Hcs. induction Hcs; simpl; lia. }
      destruct Hin as [->|Hin]; [lia|]. specialize (IH Hin Hcs). lia. }
    assert (0 <= m).
    { rewrite List.Forall_forall in Hpos. apply Hpos, Hin. }
    assert (n <= 5) by (unfold n; lia).
    nia.
Qed.

Lemma timeline_anomalies_spike_witness :
  timeline_anomalies
    [ {| date := 19723; totalActivities := 40; completions := 0;
         day_scores := []; videoTime := 0 |};
      {| date := 19724; totalActivities := 1; completions := 0;
         day_scores := []; videoTime := 0 |} ] = [].
Proof.
  apply timeline_anomalies_spike.
  - repeat constructor; simpl; lia.
  - simpl. lia.
Defined.

(** ** Insights *)

Lemma sort_snoc {A : Type} (cmp : A -> A -> Z) (l : list A) (x : A) :
  sort cmp (l ++ [x]) = sort_insert cmp x (sort cmp l).
Proof. unfold sort. by rewrite fold_left_app. Qed.

Lemma sort_insert_after {A : Type} (cmp : A -> A -> Z) (x : A)
    (before rest : list A) :
  Forall (fun y => cmp y x <= 0) before ->
  sort_insert cmp x (before ++ rest) = before ++ sort_insert cmp x rest.
Proof.
  induction 1 as [|y l Hy _ IH]; [done|]. simpl.
  rewrite (proj2 (Z.leb_le _ _) Hy). by rewrite IH.
Qed.

Lemma sort_insert_before {A : Type} (cmp : A -> A -> Z) (x : A) (rest : list A) :
  Forall (fun y => 0 < cmp y x) rest ->
  sort_insert cmp x rest = x :: rest.
Proof.
  destruct 1 as [|y l Hy _]; [done|]. simpl.
  by rewrite (proj2 (Z.leb_gt _ _) Hy).
Qed.

Lemma of_priority_snoc (p : Insight.Priority) (l : list Insight.t)
    (x : Insight.t) :
  of_priority p (l ++ [x]) =
    of_priority p l ++
    (if priorityOrder (Insight.priority x) =? priorityOrder p then [x] else []).
Proof. unfold of_priority. by rewrite List.filter_app. Qed.

Lemma of_priority_rank (p : Insight.Priority) (l : list Insight.t) :
  Forall (fun a => priorityOrder (Insight.priority a) = priorityOrder p)
    (of_priority p l).
Proof.
  apply List.Forall_forall. intros a Ha.
  apply filter_In in Ha as [_ Ha]. by apply Z.eqb_eq.
Qed.

(** Sorting by priority lists the high insights, then the medium ones,
    then the low ones, each group in the order of the argument *)
Lemma sort_by_priority (l : list Insight.t) :
  sort (fun a b => priorityOrder (Insight.priority b) -
                   priorityOrder (Insight.priority a)) l =
    of_priority Insight.high l ++ of_priority Insight.medium l ++
    of_priority Insight.low l.
Proof.
  induction l as [|x l IH] using rev_ind; [done|].
  rewrite sort_snoc, IH, !of_priority_snoc.
  pose proof (of_priority_rank Insight.high l) as Hh.
  pose proof (of_priority_rank Insight.medium l) as Hm.
  pose proof (of_priority_rank Insight.low l) as Hl.
  destruct (Insight.priority x) eqn:E; simpl.
  - rewrite !app_nil_r, sort_insert_after.
    2:{ eapply List.Forall_impl; [|exact Hh]. simpl. intros a ->. rewrite E. simpl. lia. }
    rewrite sort_insert_before.
    2:{ apply Forall_app. split; (eapply List.Forall_impl; [|eassumption]);
          simpl; intros a ->; rewrite E; simpl; lia. }
    by rewrite <- app_assoc.
  - rewrite !app_nil_r, app_assoc, sort_insert_after.
    2:{ apply Forall_app. split; (eapply List.Forall_impl; [|eassumption]);
          simpl; intros a ->; rewrite E; simpl; lia. }
    rewrite sort_insert_before.
    2:{ eapply List.Forall_impl; [|exact Hl]. simpl. intros a ->. rewrite E. simpl. lia. }
    by rewrite <- !app_assoc.
  - rewrite !app_nil_r.
    rewrite <- (app_nil_r (of_priority Insight.high l ++
                           of_priority Insight.medium l ++
                           of_priority Insight.low l)) at 1.
    rewrite sort_insert_after.
    2:{ rewrite !Forall_app. repeat split; (eapply List.Forall_impl; [|eassumption]);
          simpl; intros a ->; rewrite E; simpl; lia. }
    simpl. by rewrite <- !app_assoc.
Qed.

Lemma pushed_insights_length (data : Insight.Data) :
  (length (pushed_insights data) <= 5)%nat.
Proof.
  unfold pushed_insights. cbv zeta. rewrite !length_app.
  repeat match goal with
         | |- context [if ?b then _ else _] => destruct b
         | |- context [match ?t with improving => _ | _ => _ end] => destruct t
         end; simpl; lia.
Qed.

(** X28. The insights are the pushed ones in a stable order: those of
    priority high first, then medium, then low, each group in the order
    progress, performance, streak, habits, video.  There are at most
    five, and priorities never increase along the list. *)
Theorem generateInsights_order (data : Insight.Data) :
  let pushed := pushed_insights data in
  generateInsights data =
    of_priority Insight.high pushed ++ of_priority Insight.medium pushed ++
    of_priority Insight.low pushed /\
  (length (generateInsights data) <= 5)%nat /\
  StronglySorted
    (fun a b => priorityOrder (Insight.priority b) <=
                priorityOrder (Insight.priority a))
    (generateInsights data).
Proof.
  intros pushed. split; [apply sort_by_priority|]. split.
  - unfold generateInsights. rewrite sort_length. apply pushed_insights_length.
  - unfold generateInsights.
    eapply StronglySorted_weaken; [|apply sort_by_sorted].
    + simpl. intros a b. lia.
    + intros a b. lia.
    + intros a b c. lia.
Qed.

Lemma slice_last_length {A : Type} (n : nat) (l : list A) :
  length (slice_last n l) = Nat.min n (length l).
Proof. unfold slice_last. rewrite length_skipn. lia. Qed.

Lemma habits_test (total : Z) (n : nat) :
  (n = 0%nat -> total = 0) ->
  ge (div (of_Z total) (of_nat n)) (of_Z 5) =
    (0 <? n)%nat && (5 * Z.of_nat n <=? total).
Proof.
  intros Hzero. destruct n as [|n].
  - by rewrite Hzero.
  - unfold of_nat. rewrite Nat2Z.inj_succ, <- Z.add_1_r.
    destruct (Z.of_nat n + 1) as [|p|p] eqn:Ep; try lia.
    unfold div, of_Z. rewrite is_zero_inject_Z. simpl.
    rewrite Bool.negb_involutive.
    destruct (Z.leb_spec (5 * Z.pos p) total) as [Hle|Hgt].
    + apply Qle_bool_iff. rewrite Qred_correct, <- (Qmake_Qdiv total p).
      unfold Qle. simpl. lia.
    + apply not_true_is_false. intros H%Qle_bool_iff.
      rewrite Qred_correct, <- (Qmake_Qdiv total p) in H.
      unfold Qle in H. simpl in H. lia.
Qed.

(** X29. The habits insight is given exactly when the timeline is not
    empty and the activities of its last seven days (of all its days
    when they are fewer) are at least five a day on average; an empty
    timeline never gives it. *)
Theorem generateInsights_habits (data : Insight.Data) :
  let recent := slice_last 7 (Insight.timeline data) in
  (In great_study_habits (generateInsights data) <->
   Insight.timeline data <> [] /\
   5 * Z.of_nat (length recent) <= total_of Timeline.totalActivities recent) /\
  length recent = Nat.min 7 (length (Insight.timeline data)).
Proof.
  intros recent. split; [|apply slice_last_length].
  assert (Hne : Insight.timeline data <> [] <-> (0 < length recent)%nat).
  { unfold recent. rewrite slice_last_length.
    destruct (Insight.timeline data); simpl; [split; [done|lia]|split; [lia|done]]. }
  rewrite Hne.
  assert (Hin : In great_study_habits (generateInsights data) <->
                In great_study_habits (pushed_insights data)).
  { unfold generateInsights. split; apply Permutation_in;
      [|symmetry]; apply sort_Permutation. }
  rewrite Hin. unfold pushed_insights. cbv zeta. fold recent.
  rewrite <- (map_map Timeline.totalActivities of_Z), sum_of_Z, fold_add_total,
    Z.add_0_l.
  change (fold_right Z.add 0 (map Timeline.totalActivities recent))
    with (total_of Timeline.totalActivities recent).
  rewrite habits_test, !in_app_iff
    by (intros E; by destruct recent).
  destruct (Nat.ltb_spec 0 (length recent)),
    (Z.leb_spec (5 * Z.of_nat (length recent))
       (total_of Timeline.totalActivities recent)); simpl.
  - split; [intros _; split; [done|lia]|]. intros _. do 3 right. left. by left.
  - split; [|lia].
    repeat match goal with
           | |- context [if ?b then _ else _] => destruct b
           | |- context [match ?t with improving => _ | _ => _ end] => destruct t
           end; simpl; intros Hx; repeat (destruct Hx as [Hx|Hx]; try discriminate Hx);
      done.
  - split; [|lia].
    repeat match goal with
           | |- context [if ?b then _ else _] => destruct b
           | |- context [match ?t with improving => _ | _ => _ end] => destruct t
           end; simpl; intros Hx; repeat (destruct Hx as [Hx|Hx]; try discriminate Hx);
      done.
  - split; [|lia].
    repeat match goal with
           | |- context [if ?b then _ else _] => destruct b
           | |- context [match ?t with improving => _ | _ => _ end] => destruct t
           end; simpl; intros Hx; repeat (destruct Hx as [Hx|Hx]; try discriminate Hx);
      done.
Qed.

(** ** Cleaned scores *)

Lemma valid_score_range {A : Type} (entry : ScoreEntry A) :
  valid_score entry = true <->
  exists q : Q, entry_score entry = Number (Fin q) /\ (0 <= q <= 100)%Q.
Proof.
  unfold valid_score. destruct (entry_score entry) as [| |[q| | |]]; simpl;
    try (split; [done|by intros (q' & [=] & _)]).
  rewrite !Bool.negb_involutive, andb_true_iff, !Qle_bool_iff.
  split.
  - intros [H0 H100]. exists q. by repeat split.
  - intros (q' & [= ->] & H0 & H100). by split.
Qed.

Lemma round_half_up_range (q : Q) :
  (0 <= q <= 100)%Q -> 0 <= round_half_up q <= 100.
Proof.
  intros [H0 H100]. unfold round_half_up. split.
  - change 0 with (Qfloor (1 # 2)). apply Qfloor_resp_le. lra.
  - change 100 with (Qfloor (100 + (1 # 2))). apply Qfloor_resp_le. lra.
Qed.

Lemma valid_score_whole {A : Type} (entry : ScoreEntry A) :
  whole_percentage (entry_score entry) ->
  valid_score entry = true /\
  Number (round_field (entry_score entry)) = entry_score entry.
Proof.
  intros (k & E & Hk). split.
  - apply valid_score_range. exists (inject_Z k). split; [done|].
    split; [change 0%Q with (inject_Z 0)|change 100%Q with (inject_Z 100)];
      rewrite <- Zle_Qle; lia.
  - rewrite E. cbn [round_field]. by rewrite Math_round_of_Z.
Qed.

Lemma cleanScoreData_whole {A : Type} (scores : list (ScoreEntry A)) :
  Forall (fun entry => whole_percentage (entry_score entry)) scores ->
  cleanScoreData scores = scores.
Proof.
  unfold cleanScoreData. induction 1 as [|entry l He _ IH]; [done|].
  destruct (valid_score_whole entry He) as [Hv Hr].
  cbn [List.filter]. rewrite Hv. cbn [map]. rewrite IH, Hr. by destruct entry.
Qed.

Lemma cleanScoreData_scores {A : Type} (scores : list (ScoreEntry A)) :
  Forall (fun entry => whole_percentage (entry_score entry))
    (cleanScoreData scores).
Proof.
  unfold cleanScoreData. apply Forall_map, List.Forall_forall.
  intros entry [_ Hv]%filter_In. cbn [entry_score].
  apply valid_score_range in Hv as (q & -> & Hq).
  exists (round_half_up q). split; [done|]. by apply round_half_up_range.
Qed.

(** X30. Every score that [cleanScoreData] returns is a whole number
    from 0 to 100; entries whose score is null, missing, not a number or
    out of that range are dropped, the others keep their order, their
    timestamp and their other properties.  A list of whole scores from 0
    to 100 is returned as it is, so cleaning twice is cleaning once. *)
Theorem cleanScoreData_clean {A : Type} (scores : list (ScoreEntry A)) :
  Forall (fun entry => whole_percentage (entry_score entry))
    (cleanScoreData scores) /\
  map (fun entry => (entry_timestamp entry, entry_rest entry))
    (cleanScoreData scores) =
  map (fun entry => (entry_timestamp entry, entry_rest entry))
    (List.filter valid_score scores) /\
  (forall entry : ScoreEntry A,
     valid_score entry = true <->
     exists q : Q, entry_score entry = Number (Fin q) /\ (0 <= q <= 100)%Q) /\
  (Forall (fun entry => whole_percentage (entry_score entry)) scores ->
   cleanScoreData scores = scores) /\
  cleanScoreData (cleanScoreData scores) = cleanScoreData scores.
Proof.
  split; [apply cleanScoreData_scores|]. split.
  { unfold cleanScoreData. by rewrite map_map. }
  split; [intros entry; apply valid_score_range|].
  split; [apply cleanScoreData_whole|].
  apply cleanScoreData_whole, cleanScoreData_scores.
Qed.

Lemma cleanScoreData_clean_witness :
  cleanScoreData
    [ {| entry_score := Number (of_Z 88); entry_timestamp := 1704067200000;
         entry_rest := "quiz/1"%string |} ] =
    [ {| entry_score := Number (of_Z 88); entry_timestamp := 1704067200000;
         entry_rest := "quiz/1"%string |} ].
Proof.
  apply cleanScoreData_clean.
  constructor; [|constructor]. exists 88. split; [reflexivity|lia].
Defined.
